(** * WhatsApp webhook service: signature check, tenant fan-out and
      message processing, embedded from the TypeScript sources.

    Source files embedded here:
    - [utils/webhook.ts]            (verifyWebhookSignature)
    - [services/webhook-handler.ts] (handleWebhookMessage and helpers), in
      the revision that keeps contacts in [whatsapp_contacts] and all
      messages in the unified [messages] table, as [schema.ts] declares them
    - [index.ts]                    (the POST /webhook route)
    - [schema.ts]                   (the tables the handler queries)

    The handler is written against three collaborators that are not part of
    the repository: the PostgreSQL pool, axios (two HTTP endpoints) and the
    Node runtime (crypto, Date, cuid2).  They are gathered in the record
    [Platform]; every definition and theorem is parametric in it.

    Two statements of the handler do not fit the column types that
    [schema.ts] declares - the status UPDATE and the INSERT of the
    assistant row - and PostgreSQL refuses them whatever the tables hold;
    they are embedded as such ([pool_query_refused]). *)

From Stdlib Require Import ZArith String List Lia.
From stdpp Require Import base option list gmap strings pretty sorting.

#[local] Set Warnings "-register-all".
#[local] Open Scope string_scope.
#[local] Open Scope Z_scope.
#[local] Open Scope list_scope.

(* ------------------------------------------------------------------ *)
(** ** JavaScript values as the code uses them *)

(** [x || d] on an optional string: the empty string and [undefined] are
    both falsy. *)
Definition truthy (s : option string) : bool :=
  match s with
  | Some s => negb (String.eqb s "")
  | None => false
  end.

Definition or_else (s : option string) (d : string) : string :=
  match s with
  | Some v => if String.eqb v "" then d else v
  | None => d
  end.

(** JSON documents stored in the [json] columns.  An object is a finite
    map from member names to values. *)
Inductive json : Type :=
  | JNull
  | JBool (b : bool)
  | JNum (z : Z)
  | JStr (s : string)
  | JObj (o : gmap string json).

Inductive error : Type :=
  | DbError                    (* pool.query rejected *)
  | AxiosError (msg : string)  (* timeout, transport error or non-2xx *)
  | RangeError                 (* Invalid Date, unequal buffer lengths *)
  | TypeError                  (* member access on null *)
  | CryptoError.               (* node:crypto refused its arguments *)

Inductive outcome (A : Type) : Type :=
  | Ok (a : A)
  | Throw (e : error).
Arguments Ok {A} a.
Arguments Throw {A} e.

(** A [Date]: [None] is the Invalid Date that [new Date(NaN)] yields. *)
Definition Date := option Z.

(** [new Date(parseInt(message.timestamp) * 1000)]; the argument is the
    result of [parseInt] ([None] for NaN).  Time values beyond
    8.64e15 ms are invalid. *)
Definition new_Date (secs : option Z) : Date :=
  match secs with
  | Some s =>
      if Z.abs (s * 1000) <=? 8640000000000000 then Some (s * 1000) else None
  | None => None
  end.

(* ------------------------------------------------------------------ *)
(** ** Wire types ([services/webhook-handler.ts], interfaces) *)

(** [WhatsAppWebhookMessage].  Each optional member is stored as the value
    the handler reads through optional chaining, e.g. [msg_text_body] is
    [message.text?.body]. *)
Record WhatsAppWebhookMessage := {
  msg_from : string;
  msg_id : string;
  msg_timestamp : option Z;              (* parseInt(message.timestamp) *)
  msg_type : string;
  msg_text_body : option string;
  msg_image_caption : option string;
  msg_video_caption : option string;
  msg_document_filename : option string;
  msg_location_latitude : string;        (* as the template literal prints it *)
  msg_location_longitude : string;
  msg_button_text : option string;
  msg_interactive_type : option string;
  msg_button_reply_title : option string;
  msg_list_reply_title : option string
}.

Record WaContact := {
  wa_profile_name : option string;       (* contact?.profile?.name *)
  wa_id : string
}.

Record WaStatus := {
  st_id : string;
  st_status : string;
  st_timestamp : string;
  st_recipient_id : string;
  st_errors : list (Z * string)          (* code, title *)
}.

Record WaValue := {
  value_phone_number_id : option string; (* value?.metadata?.phone_number_id *)
  value_contacts : option (list WaContact);
  value_messages : option (list WhatsAppWebhookMessage);
  value_statuses : option (list WaStatus)
}.

Record WaChange := {
  change_field : string;
  change_value : WaValue
}.

Record WhatsAppWebhookEntry := {
  entry_id : string;
  entry_changes : list WaChange
}.

Record WhatsAppWebhookPayload := {
  payload_object : option string;
  payload_entry : list WhatsAppWebhookEntry
}.

(* ------------------------------------------------------------------ *)
(** ** Tables ([schema.ts]) *)

Record Account := {
  acc_id : string;
  acc_chatbot_id : string;
  acc_phone_number_id : string;
  acc_access_token : string;
  acc_waba_id : string;
  acc_phone_number : string;
  acc_verify_token : option string;
  acc_status : string                    (* 'active' | 'inactive' *)
}.

Record ContactRow := {
  ct_id : string;
  ct_chatbot_id : string;
  ct_phone_number : string;
  ct_display_name : string;
  ct_user_metadata : gmap string json
}.

Inductive MessageChannel := WIDGET | WHATSAPP.
Inductive MessageType := user | assistant | agent.

Record MessageRow := {
  m_id : string;
  m_chatbot_id : string;
  m_channel : MessageChannel;
  m_type : MessageType;
  m_content : string;
  m_unique_conv_id : string;
  m_citations : list string;
  m_metadata : option (gmap string json);  (* channel_message_metadata *)
  m_created_at : Z
}.

Record ChatbotRow := {
  cb_id : string;
  cb_api_key : option string
}.

Record Database := {
  whatsapp_accounts : list Account;
  whatsapp_contacts : list ContactRow;
  messages : list MessageRow;
  chatbot : list ChatbotRow
}.

(* ------------------------------------------------------------------ *)
(** ** The two HTTP collaborators *)

(** Body of the POST to [<RESPONSE_API_BASE_URL>/response]. *)
Record ResponseRequest := {
  rq_query : list (string * string);     (* messagesArray: role, content *)
  rq_mode : string;
  rq_uniqueClientId : string;
  rq_converslyWebId : option string;
  rq_phoneNumber : string;
  rq_chatbotId : string
}.

(** [response.data] of that call when it is not null, reduced to the
    members the handler reads ([success] by its truthiness). *)
Record ResponseData := {
  rd_success : bool;
  rd_response : option string;
  rd_citations : option (list string)
}.

(** Parameters of [sendWhatsAppMessage]. *)
Record SendParams := {
  sp_phoneNumberId : string;
  sp_accessToken : string;
  sp_to : string;
  sp_message : string
}.

Inductive axios_result (A : Type) : Type :=
  | AxOk (data : A)
  | AxErr (msg : string).
Arguments AxOk {A} data.
Arguments AxErr {A} msg.

Inductive level := Info | Warn | Error.

(** What the handler logs, one constructor per [logger] call site. *)
Inductive LogMsg : Type :=
  | SignatureVerificationError
  | PostReceived
  | InvalidWebhookSignature
  | SignatureWithoutSecret
  | NotAWhatsAppEvent (obj : option string)
  | ErrorProcessingWebhook
  | NoDatabaseSingleUserMode
  | CompletePayload
  | EntryDetails (businessAccountId : string)
  | ChangeDetails (field : string)
  | WebhookFieldReceived (field : string)
  | MessageReceivedNoDatabase (from type content messageId timestamp : string)
  | NoPhoneNumberId
  | ProcessingPhoneNumberId (phoneNumberId : string)
  | NoActiveAccount (phoneNumberId : string)
  | ProcessingForAccount (accountId chatbotId : string)
  | UnhandledField (field : string)
  | ErrorHandlingWebhook
  | NewMessageReceived (accountId chatbotId from type messageId : string)
  | SkippingNonText (type : string)
  | EmptyContent
  | ChatbotOrKeyMissing (chatbotId : string)
  | CallingResponseApi (chatbotId : string)
  | AiResponseSent (chatbotId : string)
  | FailedToGetResponse (data : ResponseData)
  | ErrorProcessingMessage (e : error)
  | FailedToSendErrorMessage (e : error)
  | MessageStatusUpdate (accountId messageId status recipient : string)
  | DeliveryFailed (code : option Z) (title : option string)
  | ErrorUpdatingStatus (messageId : string)
  | ErrorSendingWhatsApp (msg : string)
  | TemplateStatusUpdate.

(** Everything the service does to the outside world other than SQL. *)
Inductive Event : Type :=
  | EvLog (l : level) (m : LogMsg)
  | EvResponseApi (url : string) (req : ResponseRequest)
  | EvGraphApi (url : string) (p : SendParams).

(** The collaborators.  The [nat] argument of an oracle is the number of
    collaborator calls made so far, so that two calls with equal arguments
    may be answered differently. *)
Record Platform := {
  (* node:crypto  createHmac('sha256', key).update(data).digest('hex') *)
  hmac_sha256_hex : string → string → outcome string;
  (* Date.prototype.toISOString on a valid time value *)
  toISOString : Z → string;
  JSON_stringify_payload : WhatsAppWebhookPayload → string;
  Date_now : nat → Z;
  createId : nat → string;
  gen_random_uuid : nat → string;
  (* getDbClient(): a pool ([true]), null ([false]), or the rejection of
     initializeDatabase *)
  getDbClient : outcome bool;
  pool_query_rejects : nat → bool;
  (* the POST to the response service; [AxOk None] is a null body *)
  response_api : nat → ResponseRequest → axios_result (option ResponseData);
  graph_api : nat → SendParams → axios_result (option string);
  (* process.env *)
  FACEBOOK_APP_SECRET : option string;
  RESPONSE_API_BASE_URL : option string
}.

Record World := {
  w_db : Database;
  w_tick : nat;
  w_trace : list Event
}.

(* ------------------------------------------------------------------ *)
(** ** A state-and-exception monad for [async] code *)

Definition M (A : Type) : Type := World → outcome A * World.

#[global] Instance M_ret : MRet M := λ A a w, (Ok a, w).

#[global] Instance M_bind : MBind M := λ A B f m w,
  match m w with
  | (Ok a, w') => f a w'
  | (Throw e, w') => (Throw e, w')
  end.

Definition throw {A} (e : error) : M A := λ w, (Throw e, w).

(** [try { body } catch (e) { handler e }]: effects made before the throw
    stay (each statement is committed on its own). *)
Definition try_catch {A} (body : M A) (handler : error → M A) : M A := λ w,
  match body w with
  | (Ok a, w') => (Ok a, w')
  | (Throw e, w') => handler e w'
  end.

Definition lift {A} (o : outcome A) : M A := λ w, (o, w).

Definition emit (e : Event) : M unit := λ w,
  (Ok tt, {| w_db := w_db w; w_tick := w_tick w; w_trace := w_trace w ++ [e] |}).

Definition logger (l : level) (m : LogMsg) : M unit := emit (EvLog l m).

(** The index of the next collaborator call. *)
Definition next_tick : M nat := λ w,
  (Ok (w_tick w),
   {| w_db := w_db w; w_tick := S (w_tick w); w_trace := w_trace w |}).

Fixpoint for_of {A} (l : list A) (body : A → M unit) : M unit :=
  match l with
  | [] => mret tt
  | x :: l' => body x;; for_of l' body
  end.

Definition set_db (db : Database) (w : World) : World :=
  {| w_db := db; w_tick := w_tick w; w_trace := w_trace w |}.

#[global] Instance byte_eq_dec : EqDecision Byte.byte := Byte.byte_eq_dec.

(* ------------------------------------------------------------------ *)
(** ** SQL statements of the handler, as functions on the tables *)

Module Sql.

(** [SELECT ... FROM whatsapp_accounts
     WHERE phone_number_id = $1 AND status = 'active'] *)
Definition active_accounts (phoneNumberId : string) (db : Database)
  : list Account :=
  filter (λ a, String.eqb (acc_phone_number_id a) phoneNumberId
               && String.eqb (acc_status a) "active" = true)
         (whatsapp_accounts db).

Definition is_contact_of (chatbotId phone : string) (r : ContactRow) : bool :=
  String.eqb (ct_chatbot_id r) chatbotId
  && String.eqb (ct_phone_number r) phone.

(** [SELECT id FROM whatsapp_contacts
     WHERE chatbot_id = $1 AND phone_number = $2 LIMIT 1] *)
Definition select_contact (chatbotId phone : string) (db : Database)
  : list string :=
  take 1 (map ct_id
            (filter (λ r, is_contact_of chatbotId phone r = true)
                    (whatsapp_contacts db))).

(** [INSERT INTO whatsapp_contacts ... RETURNING id] *)
Definition insert_contact (r : ContactRow) (db : Database)
  : list string * Database :=
  ([ct_id r],
   {| whatsapp_accounts := whatsapp_accounts db;
      whatsapp_contacts := whatsapp_contacts db ++ [r];
      messages := messages db;
      chatbot := chatbot db |}).

(** [UPDATE whatsapp_contacts SET display_name = $1,
      whatsapp_user_metadata = jsonb_set(COALESCE(..), '{last_seen_at}',
      to_jsonb($2::text)) WHERE id = $3] *)
Definition touch_contact (name seen : string) (r : ContactRow) : ContactRow :=
  {| ct_id := ct_id r;
     ct_chatbot_id := ct_chatbot_id r;
     ct_phone_number := ct_phone_number r;
     ct_display_name := name;
     ct_user_metadata := <["last_seen_at" := JStr seen]> (ct_user_metadata r) |}.

Definition update_contact (name seen id : string) (db : Database) : Database :=
  {| whatsapp_accounts := whatsapp_accounts db;
     whatsapp_contacts :=
       map (λ r, if String.eqb (ct_id r) id then touch_contact name seen r else r)
           (whatsapp_contacts db);
     messages := messages db;
     chatbot := chatbot db |}.

(** [INSERT INTO messages ...] *)
Definition insert_message (r : MessageRow) (db : Database) : Database :=
  {| whatsapp_accounts := whatsapp_accounts db;
     whatsapp_contacts := whatsapp_contacts db;
     messages := messages db ++ [r];
     chatbot := chatbot db |}.

(** [SELECT id, api_key FROM chatbot WHERE id = $1 LIMIT 1] *)
Definition select_chatbot (chatbotId : string) (db : Database)
  : list ChatbotRow :=
  take 1 (filter (λ c, String.eqb (cb_id c) chatbotId = true) (chatbot db)).

Definition created_le (a b : MessageRow) : Prop :=
  m_created_at a ≤ m_created_at b.

#[global] Instance created_le_dec : RelDecision created_le :=
  λ a b, Z_le_dec (m_created_at a) (m_created_at b).

Definition in_conversation (chatbotId convId : string) (r : MessageRow) : bool :=
  String.eqb (m_chatbot_id r) chatbotId
  && String.eqb (m_unique_conv_id r) convId
  && match m_channel r with WHATSAPP => true | WIDGET => false end.

(** [SELECT content, type FROM messages
     WHERE chatbot_id = $1 AND unique_conv_id = $2 AND channel = 'WHATSAPP'
     ORDER BY created_at ASC LIMIT 10] *)
Definition select_history (chatbotId convId : string) (db : Database)
  : list MessageRow :=
  take 10 (merge_sort created_le
             (filter (λ r, in_conversation chatbotId convId r = true)
                     (messages db))).

End Sql.

Section Service.

Context (P : Platform).

(* ---------------------------------------------------------------- *)
(** *** Collaborator calls *)

(** [await pool.query(...)]: the statement either is rejected, leaving
    the tables alone, or runs atomically.  [q] receives the call index
    for [gen_random_uuid()]. *)
Definition pool_query {A} (q : nat → Database → A * Database) : M A :=
  n ← next_tick;
  if pool_query_rejects P n then throw DbError
  else λ w, let r := q n (w_db w) in (Ok r.1, set_db r.2 w).

(** [await pool.query(...)] of a statement that PostgreSQL refuses while it
    analyses the statement or reads its parameters, before any row is
    touched: the call is made and its promise rejects, whatever the tables
    hold. *)
Definition pool_query_refused {A} : M A :=
  next_tick;; throw DbError.

(** [UPDATE messages
     SET channel_message_metadata = jsonb_set(
           COALESCE(channel_message_metadata, '{}'::jsonb),
           '{status}', to_jsonb($1::text))
     WHERE channel = 'WHATSAPP'
       AND channel_message_metadata->>'waMessageId' = $2]
    with [$1 = statusValue], [$2 = messageId].  [schema.ts] declares the
    column as [json('channel_message_metadata')]; COALESCE needs its
    arguments to be of one type and PostgreSQL has no implicit cast between
    json and jsonb, so the statement is refused ("COALESCE types json and
    jsonb cannot be matched") for every status and id.  The contact UPDATE
    of [processIncomingMessage] casts its column ([::jsonb]) and is
    accepted. *)
Definition update_status_statement (statusValue messageId : string) : M unit :=
  pool_query_refused.

(** [INSERT INTO messages
       (id, chatbot_id, channel, type, content, unique_conv_id, citations,
        channel_message_metadata, created_at)
     VALUES (gen_random_uuid(), $1, 'WHATSAPP', 'assistant', $2, $3, $4, $5,
             NOW())]
    with [$4 = JSON.stringify(responseData.citations || [])].  [schema.ts]
    declares [citations] as [text('citations').array()], so PostgreSQL
    reads [$4] as an array literal, which is enclosed in braces; the JSON
    text of an array is enclosed in brackets ("[]" for no citations), so
    the statement is refused ("malformed array literal") for every list of
    citations. *)
Definition insert_assistant_statement (chatbotId content uniqueConvId : string)
    (citations : list string) (metadata : gmap string json) : M unit :=
  pool_query_refused.

Definition Date_now_ : M Z := n ← next_tick; mret (Date_now P n).

Definition createId_ : M string := n ← next_tick; mret (createId P n).

(** [timestamp.toISOString()], a RangeError on an Invalid Date. *)
Definition Date_toISOString (d : Date) : M string :=
  match d with
  | Some ms => mret (toISOString P ms)
  | None => throw RangeError
  end.

(** [axios.post(`${responseApiUrl}/response`, responseRequest, ...)] *)
Definition axios_post_response (url : string) (req : ResponseRequest)
  : M (option ResponseData) :=
  n ← next_tick;
  emit (EvResponseApi url req);;
  match response_api P n req with
  | AxOk d => mret d
  | AxErr msg => throw (AxiosError msg)
  end.

(* ---------------------------------------------------------------- *)
(** *** [utils/webhook.ts] *)

Definition Buffer_from (s : string) : list Byte.byte := list_byte_of_string s.

(** [crypto.timingSafeEqual]: throws on buffers of different lengths. *)
Definition timingSafeEqual (a b : list Byte.byte) : outcome bool :=
  if Nat.eqb (length a) (length b)
  then Ok (bool_decide (a = b))
  else Throw RangeError.

(** The [try] block of [verifyWebhookSignature]. *)
Definition verify_try (payload signature appSecret : string) : outcome bool :=
  match hmac_sha256_hex P appSecret payload with
  | Throw e => Throw e
  | Ok digest =>
      let expected := "sha256=" +:+ digest in
      let sigBuf := Buffer_from signature in
      let expBuf := Buffer_from expected in
      if negb (Nat.eqb (length sigBuf) (length expBuf)) then Ok false
      else timingSafeEqual sigBuf expBuf
  end.

Definition verifyWebhookSignature (payload signature appSecret : string)
  : M bool :=
  try_catch (lift (verify_try payload signature appSecret))
            (λ _, logger Error SignatureVerificationError;; mret false).

(* ---------------------------------------------------------------- *)
(** *** [services/webhook-handler.ts] *)

Record SendResult := {
  sr_success : bool;
  sr_messageId : option string;
  sr_error : option string
}.

(** [sendWhatsAppMessage]: one POST to the Graph API; every failure is
    caught and returned. *)
Definition sendWhatsAppMessage (params : SendParams) : M SendResult :=
  let url := "https://graph.facebook.com/v18.0/"
             +:+ sp_phoneNumberId params +:+ "/messages" in
  n ← next_tick;
  emit (EvGraphApi url params);;
  match graph_api P n params with
  | AxOk messageId =>
      mret {| sr_success := true; sr_messageId := messageId; sr_error := None |}
  | AxErr msg =>
      logger Error (ErrorSendingWhatsApp msg);;
      mret {| sr_success := false; sr_messageId := None; sr_error := Some msg |}
  end.

(** The [switch (type)] of [processIncomingMessage]. *)
Definition messageContent_of (message : WhatsAppWebhookMessage) : string :=
  let type := msg_type message in
  if String.eqb type "text" then or_else (msg_text_body message) ""
  else if String.eqb type "image" then or_else (msg_image_caption message) "[Image]"
  else if String.eqb type "audio" then "[Voice message]"
  else if String.eqb type "video" then or_else (msg_video_caption message) "[Video]"
  else if String.eqb type "document" then
    "[Document: " +:+ or_else (msg_document_filename message) "document" +:+ "]"
  else if String.eqb type "location" then
    "[Location: " +:+ msg_location_latitude message +:+ ", "
                  +:+ msg_location_longitude message +:+ "]"
  else if String.eqb type "button" then or_else (msg_button_text message) ""
  else if String.eqb type "interactive" then
    match msg_interactive_type message with
    | Some t =>
        if String.eqb t "button_reply"
        then or_else (msg_button_reply_title message) ""
        else if String.eqb t "list_reply"
        then or_else (msg_list_reply_title message) ""
        else ""
    | None => ""
    end
  else "[Unsupported message type: " +:+ type +:+ "]".

Definition is_ai_type (type : string) : bool :=
  String.eqb type "text" || String.eqb type "button"
  || String.eqb type "interactive".

Definition customerName_of (contacts : option (list WaContact)) (from : string)
  : string :=
  let contact := contacts ≫= List.find (λ c, String.eqb (wa_id c) from) in
  or_else (contact ≫= wa_profile_name) "Unknown".

Definition uniqueConvId_of (from chatbotId : string) : string :=
  "whatsapp_" +:+ from +:+ "_" +:+ chatbotId.

Definition new_contact_metadata (account : Account) (from customerName iso messageId : string)
  : gmap string json :=
  {[ "wa_id" := JStr from;
     "profile" := JObj {[ "name" := JStr customerName ]};
     "first_seen_at" := JStr iso;
     "last_seen_at" := JStr iso;
     "last_inbound_message_id" := JStr messageId;
     "waba_id" := JStr (acc_waba_id account);
     "phone_number_id" := JStr (acc_phone_number_id account);
     "display_phone_number" := JStr (acc_phone_number account);
     "source" := JStr "organic";
     "opt_in_status" := JBool true ]}.

(** "Get or create contact" (the first block of the [try] of
    [processIncomingMessage]); returns [contactId]. *)
Definition upsertContact (account : Account) (from customerName : string)
    (timestamp : Date) (messageId : string) : M string :=
  contactResult ← pool_query (λ _ db,
    (Sql.select_contact (acc_chatbot_id account) from db, db));
  match contactResult with
  | [] =>
      newContactId ← createId_;
      iso ← Date_toISOString timestamp;
      insertResult ← pool_query (λ _ db,
        Sql.insert_contact
          {| ct_id := newContactId;
             ct_chatbot_id := acc_chatbot_id account;
             ct_phone_number := from;
             ct_display_name := customerName;
             ct_user_metadata :=
               new_contact_metadata account from customerName iso messageId |}
          db);
      mret (default "" (head insertResult))
  | contactId :: _ =>
      iso ← Date_toISOString timestamp;
      pool_query (λ _ db,
        (tt, Sql.update_contact customerName iso contactId db));;
      mret contactId
  end.

Definition dbMessageType_of (type : string) : string :=
  if is_ai_type type then "text"
  else if String.eqb type "image" || String.eqb type "video"
          || String.eqb type "document" then type
  else "text".

Definition apology_gateway : string :=
  "Sorry, I encountered an error processing your message. Please try again later.".

Definition apology_exception : string :=
  "Sorry, I encountered an error. Please try again later.".

Definition send_to (account : Account) (to text : string) : SendParams :=
  {| sp_phoneNumberId := acc_phone_number_id account;
     sp_accessToken := acc_access_token account;
     sp_to := to;
     sp_message := text |}.

Definition role_of (r : MessageRow) : string * string :=
  (match m_type r with user => "user" | _ => "assistant" end, m_content r).

(** The body of the [try] of [processIncomingMessage] after the contact
    block. *)
Definition respond (account : Account) (from messageId type messageContent : string)
    (timestamp : Date) (uniqueConvId contactId : string) : M unit :=
  let dbMessageType := dbMessageType_of type in
  iso ← Date_toISOString timestamp;
  pool_query (λ n db,
    (tt, Sql.insert_message
           {| m_id := gen_random_uuid P n;
              m_chatbot_id := acc_chatbot_id account;
              m_channel := WHATSAPP;
              m_type := user;
              m_content := messageContent;
              m_unique_conv_id := uniqueConvId;
              m_citations := [];
              m_metadata := Some {[ "phoneNumber" := JStr from;
                                    "waMessageId" := JStr messageId;
                                    "messageType" := JStr dbMessageType;
                                    "timestamp" := JStr iso;
                                    "contactId" := JStr contactId ]};
              m_created_at := default 0 timestamp |}
           db));;
  chatbotResult ← pool_query (λ _ db,
    (Sql.select_chatbot (acc_chatbot_id account) db, db));
  match chatbotResult with
  | [] => logger Error (ChatbotOrKeyMissing (acc_chatbot_id account))
  | chatbot :: _ =>
      if negb (truthy (cb_api_key chatbot))
      then logger Error (ChatbotOrKeyMissing (acc_chatbot_id account))
      else
        let responseApiUrl :=
          or_else (RESPONSE_API_BASE_URL P) "http://localhost:8030" in
        let uniqueClientId := uniqueConvId_of from (acc_chatbot_id account) in
        historyResult ← pool_query (λ _ db,
          (Sql.select_history (acc_chatbot_id account) uniqueConvId db, db));
        let messagesArray := map role_of historyResult in
        let responseRequest :=
          {| rq_query := messagesArray;
             rq_mode := "default";
             rq_uniqueClientId := uniqueClientId;
             rq_converslyWebId := cb_api_key chatbot;
             rq_phoneNumber := from;
             rq_chatbotId := acc_chatbot_id account |} in
        logger Info (CallingResponseApi (acc_chatbot_id account));;
        startTime ← Date_now_;
        response_data ← axios_post_response (responseApiUrl +:+ "/response")
                                            responseRequest;
        endTime ← Date_now_;
        let responseTime := endTime - startTime in
        responseData ← match response_data with
                       | Some d => mret d
                       | None => throw TypeError
                       end;
        if rd_success responseData && truthy (rd_response responseData) then
          let reply := default "" (rd_response responseData) in
          sendResult ← sendWhatsAppMessage (send_to account from reply);
          finalMessageId ←
            (if truthy (sr_messageId sendResult)
             then mret (default "" (sr_messageId sendResult))
             else now ← Date_now_; mret ("ai_" +:+ pretty now));
          insert_assistant_statement
            (acc_chatbot_id account) reply uniqueConvId
            (default [] (rd_citations responseData))
            {[ "phoneNumber" := JStr from;
               "waMessageId" := JStr finalMessageId;
               "messageType" := JStr "text";
               "responseTimeMs" := JNum responseTime;
               "contactId" := JStr contactId ]};;
          logger Info (AiResponseSent (acc_chatbot_id account))
        else
          logger Error (FailedToGetResponse responseData);;
          sendWhatsAppMessage (send_to account from apology_gateway);;
          mret tt
  end.

Definition processIncomingMessage (account : Account)
    (message : WhatsAppWebhookMessage) (contacts : option (list WaContact))
  : M unit :=
  let from := msg_from message in
  let messageId := msg_id message in
  let timestamp := new_Date (msg_timestamp message) in
  let type := msg_type message in
  let customerName := customerName_of contacts from in
  logger Info (NewMessageReceived (acc_id account) (acc_chatbot_id account)
                                  from type messageId);;
  let messageContent := messageContent_of message in
  if negb (is_ai_type type) then logger Info (SkippingNonText type)
  else if String.eqb messageContent "" then logger Warn EmptyContent
  else
    try_catch
      (let uniqueConvId := uniqueConvId_of from (acc_chatbot_id account) in
       contactId ← upsertContact account from customerName timestamp messageId;
       respond account from messageId type messageContent timestamp
               uniqueConvId contactId)
      (λ error,
         logger Error (ErrorProcessingMessage error);;
         try_catch
           (sendWhatsAppMessage (send_to account from apology_exception);;
            mret tt)
           (λ sendError, logger Error (FailedToSendErrorMessage sendError))).

Definition processMessageStatus (account : Account) (status : WaStatus)
  : M unit :=
  let messageId := st_id status in
  let statusValue := st_status status in
  logger Info (MessageStatusUpdate (acc_id account) messageId statusValue
                                   (st_recipient_id status));;
  (if String.eqb statusValue "failed"
   then logger Error (DeliveryFailed (fst <$> head (st_errors status))
                                     (snd <$> head (st_errors status)))
   else mret tt);;
  try_catch
    (update_status_statement statusValue messageId)
    (λ _, logger Error (ErrorUpdatingStatus messageId)).

Definition handleTemplateStatusUpdate (businessAccountId : string)
    (value : WaValue) : M unit :=
  logger Info TemplateStatusUpdate.

(** The no-database variant only logs; the argument of its log call is built
    first, [timestamp.toISOString()] included. *)
Definition processIncomingMessageSimple (message : WhatsAppWebhookMessage)
    (contacts : option (list WaContact)) : M unit :=
  let from := msg_from message in
  let messageId := msg_id message in
  let timestamp := new_Date (msg_timestamp message) in
  let type := msg_type message in
  let customerName := customerName_of contacts from in
  let messageContent :=
    if String.eqb type "text" then or_else (msg_text_body message) ""
    else if String.eqb type "image" then or_else (msg_image_caption message) "[Image]"
    else if String.eqb type "audio" then "[Voice message]"
    else if String.eqb type "video" then or_else (msg_video_caption message) "[Video]"
    else if String.eqb type "document" then
      "[Document: " +:+ or_else (msg_document_filename message) "document" +:+ "]"
    else "[" +:+ type +:+ "]" in
  iso ← Date_toISOString timestamp;
  logger Info (MessageReceivedNoDatabase
                 (customerName +:+ " (" +:+ from +:+ ")") type messageContent
                 messageId iso).

(** One iteration of [for (const account of accountResult.rows)]. *)
Definition handle_account (businessAccountId : string) (change : WaChange)
    (account : Account) : M unit :=
  let field := change_field change in
  let value := change_value change in
  logger Info (ProcessingForAccount (acc_id account) (acc_chatbot_id account));;
  if String.eqb field "messages" then
    for_of (default [] (value_messages value))
           (λ message, processIncomingMessage account message
                                               (value_contacts value));;
    for_of (default [] (value_statuses value))
           (λ status, processMessageStatus account status)
  else if String.eqb field "message_template_status_update" then
    handleTemplateStatusUpdate businessAccountId value
  else logger Info (UnhandledField field).

(** One iteration of [for (const change of entry.changes)], database
    path. *)
Definition handle_change (businessAccountId : string) (change : WaChange)
  : M unit :=
  let value := change_value change in
  if negb (truthy (value_phone_number_id value))
  then logger Warn NoPhoneNumberId
  else
    let phoneNumberId := default "" (value_phone_number_id value) in
    logger Info (ProcessingPhoneNumberId phoneNumberId);;
    accountResult ← pool_query (λ _ db,
      (Sql.active_accounts phoneNumberId db, db));
    match accountResult with
    | [] => logger Warn (NoActiveAccount phoneNumberId)
    | _ => for_of accountResult (handle_account businessAccountId change)
    end.

Definition handleWebhookMessage (payload : WhatsAppWebhookPayload) : M unit :=
  pool ← lift (getDbClient P);
  if negb pool then
    logger Warn NoDatabaseSingleUserMode;;
    logger Info CompletePayload;;
    try_catch
      (for_of (payload_entry payload) (λ entry,
         logger Info (EntryDetails (entry_id entry));;
         for_of (entry_changes entry) (λ change,
           logger Info (ChangeDetails (change_field change));;
           if String.eqb (change_field change) "messages" then
             for_of (default [] (value_messages (change_value change)))
                    (λ message, processIncomingMessageSimple message
                                  (value_contacts (change_value change)))
           else logger Info (WebhookFieldReceived (change_field change)))))
      (λ error, logger Error ErrorProcessingWebhook;; throw error)
  else
    try_catch
      (for_of (payload_entry payload) (λ entry,
         for_of (entry_changes entry) (handle_change (entry_id entry))))
      (λ error, logger Error ErrorHandlingWebhook;; throw error).

(* ---------------------------------------------------------------- *)
(** *** [index.ts]: the POST /webhook route *)

Record Request := {
  req_body : WhatsAppWebhookPayload;
  req_rawBody : option string;           (* (req as any).rawBody *)
  req_signature : option string          (* x-hub-signature-256 *)
}.

Inductive Reply : Type :=
  | Json (status : Z) (success : bool) (message error : option string).

(** The route answers before the processing it started has finished; the
    reply is the value returned here, and the final world is the one the
    background task leaves behind. *)
Definition post_webhook (req : Request) : M Reply :=
  let payload := req_body req in
  logger Info PostReceived;;
  let signature := req_signature req in
  let appSecret := FACEBOOK_APP_SECRET P in
  let continue : M Reply :=
    if negb (bool_decide (payload_object payload = Some "whatsapp_business_account"))
    then
      logger Warn (NotAWhatsAppEvent (payload_object payload));;
      mret (Json 200 true (Some "Not a WhatsApp webhook event") None)
    else
      try_catch (handleWebhookMessage payload)
                (λ _, logger Error ErrorProcessingWebhook);;
      mret (Json 200 true (Some "Webhook received") None) in
  if truthy signature && truthy appSecret then
    let rawBody := or_else (req_rawBody req) (JSON_stringify_payload P payload) in
    isValid ← verifyWebhookSignature rawBody (default "" signature)
                                     (default "" appSecret);
    if negb isValid then
      logger Error InvalidWebhookSignature;;
      mret (Json 401 false None (Some "Invalid signature"))
    else continue
  else
    (if truthy signature && negb (truthy appSecret)
     then logger Warn SignatureWithoutSecret else mret tt);;
    continue.

End Service.

(* ------------------------------------------------------------------ *)
(** ** Observations on traces and tables *)

Definition gateway_requests (t : list Event) : list ResponseRequest :=
  omap (λ e, match e with EvResponseApi _ r => Some r | _ => None end) t.

Definition dispatched (t : list Event) : list SendParams :=
  omap (λ e, match e with EvGraphApi _ p => Some p | _ => None end) t.

Definition is_assistant (r : MessageRow) : bool :=
  match m_type r with assistant => true | _ => false end.

Definition is_user (r : MessageRow) : bool :=
  match m_type r with user => true | _ => false end.

(** The route's first gate: a signature header is present, a secret is
    configured, and the verifier does not accept the header. *)
Definition signature_gate_rejects (P : Platform) (req : Request) : bool :=
  truthy (req_signature req) && truthy (FACEBOOK_APP_SECRET P)
  && negb match verify_try P
                  (or_else (req_rawBody req)
                           (JSON_stringify_payload P (req_body req)))
                  (default "" (req_signature req))
                  (default "" (FACEBOOK_APP_SECRET P)) with
          | Ok b => b
          | Throw _ => false
          end.

Definition not_whatsapp_reply : Reply :=
  Json 200 true (Some "Not a WhatsApp webhook event") None.

Definition invalid_signature_reply : Reply :=
  Json 401 false None (Some "Invalid signature").

Definition received_reply : Reply :=
  Json 200 true (Some "Webhook received") None.

(** The rows of [whatsapp_contacts] for one (chatbot, phone number) pair. *)
Definition contact_rows (chatbotId phone : string) (db : Database)
  : list ContactRow :=
  filter (λ r, Sql.is_contact_of chatbotId phone r = true) (whatsapp_contacts db).

(** One inbound event as the upsert sees it: display name, time value of a
    valid [Date], inbound message id. *)
Record Seen := {
  seen_name : string;
  seen_at : Z;
  seen_message : string
}.

(** [upsertContact] once per event, in order. *)
Fixpoint upsert_each (P : Platform) (account : Account) (from : string)
    (events : list Seen) : M (list string) :=
  match events with
  | [] => mret []
  | e :: rest =>
      id ← upsertContact P account from (seen_name e) (Some (seen_at e))
                         (seen_message e);
      ids ← upsert_each P account from rest;
      mret (id :: ids)
  end.

Definition last_seen_at (r : ContactRow) : option json :=
  ct_user_metadata r !! "last_seen_at".

(** The chatbot of [account] is found and has an API key: what
    [Sql.select_chatbot] returns for it, which depends on the [chatbot]
    table only, is a row with a truthy [api_key]. *)
Definition has_api_key (bots : list ChatbotRow) (account : Account) : Prop :=
  ∃ c l, take 1 (filter (λ c, String.eqb (cb_id c) (acc_chatbot_id account) = true) bots)
         = c :: l
         ∧ truthy (cb_api_key c) = true.

(** What identifies an inbound row: bot, conversation marker, content. *)
Definition row_key (r : MessageRow) : string * string * string :=
  (m_chatbot_id r, m_unique_conv_id r, m_content r).

(** The (account id, message id) pairs of the "New message received" log
    lines: one per call of [processIncomingMessage]. *)
Definition processed (t : list Event) : list (string * string) :=
  omap (λ e, match e with
             | EvLog Info (NewMessageReceived accountId _ _ _ messageId) =>
                 Some (accountId, messageId)
             | _ => None
             end) t.

(** The conversation marker, gateway call and inbound row a tenant is
    expected to get for [message]. *)
Definition tenant_marker (message : WhatsAppWebhookMessage) (account : Account)
  : string :=
  uniqueConvId_of (msg_from message) (acc_chatbot_id account).

Definition tenant_call (message : WhatsAppWebhookMessage) (account : Account)
  : string * string :=
  (acc_chatbot_id account, tenant_marker message account).

Definition tenant_row (message : WhatsAppWebhookMessage) (body : string)
    (account : Account) : string * string * string :=
  (acc_chatbot_id account, tenant_marker message account, body).

(** Weakest precondition: [Q] holds of the result and final world of
    running [m] from [w]. *)
Definition wp {A} (m : M A) (Q : outcome A → World → Prop) (w : World) : Prop :=
  Q (m w).1 (m w).2.

Definition with_trace (t : list Event) (w : World) : World :=
  {| w_db := w_db w; w_tick := w_tick w; w_trace := t |}.

Definition with_tick (n : nat) (w : World) : World :=
  {| w_db := w_db w; w_tick := n; w_trace := w_trace w |}.

(** A concrete platform for the examples: a toy keyed digest, a network
    that answers every call, a database that accepts every statement. *)
Module Demo.

Definition make
    (response : nat → ResponseRequest → axios_result (option ResponseData))
    (graph : nat → SendParams → axios_result (option string)) : Platform :=
  {| hmac_sha256_hex := λ key data, Ok (key +:+ ":" +:+ data);
     toISOString := λ ms, pretty ms;
     JSON_stringify_payload := λ _, "{}";
     Date_now := λ n, 1000 + Z.of_nat n;
     createId := λ n, "c" +:+ pretty n;
     gen_random_uuid := λ n, "u" +:+ pretty n;
     getDbClient := Ok true;
     pool_query_rejects := λ _, false;
     response_api := response;
     graph_api := graph;
     FACEBOOK_APP_SECRET := Some "s3cret";
     RESPONSE_API_BASE_URL := None |}.

Definition answers (success : bool) (reply : option string)
  : nat → ResponseRequest → axios_result (option ResponseData) :=
  λ _ _, AxOk (Some {| rd_success := success; rd_response := reply;
                       rd_citations := None |}).

Definition delivers : nat → SendParams → axios_result (option string) :=
  λ _ _, AxOk (Some "wamid.out").

Definition refuses : nat → SendParams → axios_result (option string) :=
  λ _ _, AxErr "(#131030) Recipient phone number not in allowed list".

Definition platform : Platform := make (answers true (Some "hello")) delivers.

Definition empty_db : Database :=
  {| whatsapp_accounts := []; whatsapp_contacts := []; messages := [];
     chatbot := [] |}.

Definition world (db : Database) : World :=
  {| w_db := db; w_tick := 0; w_trace := [] |}.

Definition text_message (body : string) : WhatsAppWebhookMessage :=
  {| msg_from := "15550001"; msg_id := "wamid.in"; msg_timestamp := Some 1700000000;
     msg_type := "text"; msg_text_body := Some body;
     msg_image_caption := None; msg_video_caption := None;
     msg_document_filename := None;
     msg_location_latitude := "undefined"; msg_location_longitude := "undefined";
     msg_button_text := None; msg_interactive_type := None;
     msg_button_reply_title := None; msg_list_reply_title := None |}.

Definition account (id bot : string) : Account :=
  {| acc_id := id; acc_chatbot_id := bot; acc_phone_number_id := "pn-1";
     acc_access_token := "tok-" +:+ id; acc_waba_id := "waba";
     acc_phone_number := "+1555"; acc_verify_token := None;
     acc_status := "active" |}.

End Demo.

(** Data for the examples below. *)

Definition audio_message : WhatsAppWebhookMessage :=
  {| msg_from := "15550001"; msg_id := "wamid.audio"; msg_timestamp := Some 1700000000;
     msg_type := "audio"; msg_text_body := None;
     msg_image_caption := None; msg_video_caption := None;
     msg_document_filename := None;
     msg_location_latitude := "undefined"; msg_location_longitude := "undefined";
     msg_button_text := None; msg_interactive_type := None;
     msg_button_reply_title := None; msg_list_reply_title := None |}.

Definition page_event_bad_signature : Request :=
  {| req_body := {| payload_object := Some "page"; payload_entry := [] |};
     req_rawBody := Some "{}";
     req_signature := Some "sha256=forged" |}.

Definition page_event_unsigned : Request :=
  {| req_body := {| payload_object := Some "page"; payload_entry := [] |};
     req_rawBody := Some "{}";
     req_signature := None |}.

(** Two tenants share a routing key: the same inbound message was stored
    once for each, so two rows reference the provider id "wamid.in". *)
Definition inbound_row (id bot : string) (at_ : Z) : MessageRow :=
  {| m_id := id; m_chatbot_id := bot; m_channel := WHATSAPP; m_type := user;
     m_content := "hi"; m_unique_conv_id := uniqueConvId_of "15550001" bot;
     m_citations := [];
     m_metadata := Some {[ "waMessageId" := JStr "wamid.in" ]};
     m_created_at := at_ |}.

Definition two_rows_one_provider_id : Database :=
  {| whatsapp_accounts := []; whatsapp_contacts := [];
     messages := [inbound_row "m1" "bot1" 100; inbound_row "m2" "bot2" 200];
     chatbot := [] |}.

Definition read_event : WaStatus :=
  {| st_id := "wamid.in"; st_status := "read"; st_timestamp := "1700000001";
     st_recipient_id := "15550001"; st_errors := [] |}.

(** The world after a "read" status event for "wamid.in". *)
Definition after_read_event : World :=
  (processMessageStatus (Demo.account "a1" "bot1") read_event
     (Demo.world two_rows_one_provider_id)).2.

Definition two_visits : list Seen :=
  [ {| seen_name := "Ann"; seen_at := 1700000000000; seen_message := "wamid.1" |};
    {| seen_name := "Ann B."; seen_at := 1700000060000; seen_message := "wamid.2" |} ].

Definition one_bot_db : Database :=
  {| whatsapp_accounts := [Demo.account "a1" "bot1"];
     whatsapp_contacts := [];
     messages := [];
     chatbot := [{| cb_id := "bot1"; cb_api_key := Some "key-1" |}] |}.

(** A gateway that reports failure; a provider send that fails. *)
Definition failing_gateway : Platform :=
  Demo.make (Demo.answers false None) Demo.delivers.

Abbreviation gateway_failure_run :=
  (processIncomingMessage failing_gateway (Demo.account "a1" "bot1")
     (Demo.text_message "hi") None (Demo.world one_bot_db)).

Definition failing_send : Platform :=
  Demo.make (Demo.answers true (Some "hello")) Demo.refuses.

Abbreviation failed_send_run :=
  (processIncomingMessage failing_send (Demo.account "a1" "bot1")
     (Demo.text_message "hi") None (Demo.world one_bot_db)).

Definition shared_number_db : Database :=
  {| whatsapp_accounts := [Demo.account "a1" "bot1"; Demo.account "a2" "bot2"];
     whatsapp_contacts := [];
     messages := [];
     chatbot := [ {| cb_id := "bot1"; cb_api_key := Some "key-1" |};
                  {| cb_id := "bot2"; cb_api_key := Some "key-2" |} ] |}.

Definition text_change : WaChange :=
  {| change_field := "messages";
     change_value :=
       {| value_phone_number_id := Some "pn-1";
          value_contacts := None;
          value_messages := Some [Demo.text_message "hi"];
          value_statuses := None |} |}.

Definition text_delivery : WhatsAppWebhookPayload :=
  {| payload_object := Some "whatsapp_business_account";
     payload_entry := [{| entry_id := "waba"; entry_changes := [text_change] |}] |}.

(* ================================================================== *)
(** * Further code: the subscription handshake, the connection pool,
      and what the handlers may and may not do *)

(* ------------------------------------------------------------------ *)
(** ** [handleWebhookVerify] and the GET /webhook route *)

(** The two environment variables the handshake falls back to. *)
Record VerifyEnv := {
  WHATSAPP_VERIFY_TOKEN : option string;
  WEBHOOK_VERIFY_TOKEN : option string
}.

(** What the handshake logs, one constructor per [logger] call site. *)
Inductive VerifyLog : Type :=
  | VerificationAttempt (mode : option string) (token challenge : bool)
  | ModeNotSubscribe
  | NoVerifyTokenConfigured
  | VerifyTokenMismatch
  | VerifiedUsingEnvToken
  | NoActiveAccountWithToken (token : option string)
  | VerifiedForAccount (accountId chatbotId : string)
  | ErrorVerifyingWebhook
  | WebhookVerified
  | WebhookVerificationFailed.

(** What [handleWebhookVerify] throws. *)
Inductive verify_error : Type :=
  | VerifyTokenNotConfigured     (* new Error('Verify token not configured') *)
  | InvalidVerifyToken           (* new Error('Invalid verify token') *)
  | Rejected (e : error).        (* getDbClient() or pool.query rejected *)

(** The result of the handshake: the challenge to echo, or the error. *)
Inductive verify_result : Type :=
  | Challenge (challenge : option string)
  | VerifyFailed (e : verify_error).

(** [SELECT id, chatbot_id, phone_number_id FROM whatsapp_accounts
     WHERE verify_token = $1 AND status = 'active' LIMIT 1]; an undefined
    parameter is sent as NULL, which equals nothing. *)
Definition accounts_with_token (verifyToken : option string) (db : Database)
  : list Account :=
  take 1 (filter (λ a, bool_decide (acc_verify_token a = verifyToken)
                       && bool_decide (verifyToken ≠ None)
                       && String.eqb (acc_status a) "active" = true)
                 (whatsapp_accounts db)).

(** [process.env.WHATSAPP_VERIFY_TOKEN || process.env.WEBHOOK_VERIFY_TOKEN] *)
Definition expectedToken_of (V : VerifyEnv) : option string :=
  if truthy (WHATSAPP_VERIFY_TOKEN V) then WHATSAPP_VERIFY_TOKEN V
  else WEBHOOK_VERIFY_TOKEN V.

(** [handleWebhookVerify], with its log lines and the world (only the call
    counter can change) passed explicitly. *)
Definition handleWebhookVerify (P : Platform) (V : VerifyEnv)
    (verifyToken challenge : option string) (w : World)
  : verify_result * list (level * VerifyLog) * World :=
  match getDbClient P with
  | Throw e => (VerifyFailed (Rejected e), [], w)
  | Ok false =>
      let expectedToken := expectedToken_of V in
      if negb (truthy expectedToken) then
        (VerifyFailed VerifyTokenNotConfigured, [(Warn, NoVerifyTokenConfigured)], w)
      else if negb (bool_decide (verifyToken = expectedToken)) then
        (VerifyFailed InvalidVerifyToken, [(Warn, VerifyTokenMismatch)], w)
      else (Challenge challenge, [(Info, VerifiedUsingEnvToken)], w)
  | Ok true =>
      match pool_query P (λ _ db, (accounts_with_token verifyToken db, db)) w with
      | (Throw e, w') =>
          (VerifyFailed (Rejected e), [(Error, ErrorVerifyingWebhook)], w')
      | (Ok [], w') =>
          (VerifyFailed InvalidVerifyToken,
           [(Warn, NoActiveAccountWithToken verifyToken);
            (Error, ErrorVerifyingWebhook)], w')
      | (Ok (account :: _), w') =>
          (Challenge challenge,
           [(Info, VerifiedForAccount (acc_id account) (acc_chatbot_id account))],
           w')
      end
  end.

(** The reply of the GET route: [res.status(s).send(body)]. *)
Inductive VerifyReply : Type :=
  | Text (status : Z) (body : option string).

Definition forbidden : VerifyReply := Text 403 (Some "Forbidden").

(** [app.get('/webhook', ...)] of [index.ts]; the three arguments are
    [req.query['hub.mode']], ['hub.verify_token'] and ['hub.challenge']. *)
Definition get_webhook (P : Platform) (V : VerifyEnv)
    (mode verifyToken challenge : option string) (w : World)
  : VerifyReply * list (level * VerifyLog) * World :=
  let attempt := (Info, VerificationAttempt mode (truthy verifyToken)
                                            (truthy challenge)) in
  if negb (bool_decide (mode = Some "subscribe")) then
    (forbidden, [attempt; (Warn, ModeNotSubscribe)], w)
  else
    match handleWebhookVerify P V verifyToken challenge w with
    | (Challenge challengeResponse, logs, w') =>
        (Text 200 challengeResponse, attempt :: logs ++ [(Info, WebhookVerified)], w')
    | (VerifyFailed _, logs, w') =>
        (forbidden, attempt :: logs ++ [(Warn, WebhookVerificationFailed)], w')
    end.

(** An active account carries the token. *)
Definition token_of_active_account (db : Database) (verifyToken : option string)
  : Prop :=
  ∃ token account,
    verifyToken = Some token
    ∧ account ∈ whatsapp_accounts db
    ∧ acc_verify_token account = Some token
    ∧ acc_status account = "active".

Definition seeded_db : Database :=
  {| whatsapp_accounts :=
       [ {| acc_id := "a1"; acc_chatbot_id := "bot1"; acc_phone_number_id := "pn-1";
            acc_access_token := "tok-a1"; acc_waba_id := "waba";
            acc_phone_number := "+1555"; acc_verify_token := Some "vt-1";
            acc_status := "active" |};
         {| acc_id := "a2"; acc_chatbot_id := "bot2"; acc_phone_number_id := "pn-2";
            acc_access_token := "tok-a2"; acc_waba_id := "waba";
            acc_phone_number := "+1556"; acc_verify_token := Some "vt-2";
            acc_status := "inactive" |} ];
     whatsapp_contacts := []; messages := []; chatbot := [] |}.

Definition no_env_tokens : VerifyEnv :=
  {| WHATSAPP_VERIFY_TOKEN := None; WEBHOOK_VERIFY_TOKEN := None |}.

Definition no_pool : Platform :=
  {| hmac_sha256_hex := hmac_sha256_hex Demo.platform;
     toISOString := toISOString Demo.platform;
     JSON_stringify_payload := JSON_stringify_payload Demo.platform;
     Date_now := Date_now Demo.platform;
     createId := createId Demo.platform;
     gen_random_uuid := gen_random_uuid Demo.platform;
     getDbClient := Ok false;
     pool_query_rejects := pool_query_rejects Demo.platform;
     response_api := response_api Demo.platform;
     graph_api := graph_api Demo.platform;
     FACEBOOK_APP_SECRET := FACEBOOK_APP_SECRET Demo.platform;
     RESPONSE_API_BASE_URL := RESPONSE_API_BASE_URL Demo.platform |}.

Definition env_token : VerifyEnv :=
  {| WHATSAPP_VERIFY_TOKEN := None; WEBHOOK_VERIFY_TOKEN := Some "env-token" |}.

Definition forged_delivery : Request :=
  {| req_body := text_delivery;
     req_rawBody := Some "{}";
     req_signature := Some "sha256=forged" |}.

Definition unsigned_delivery : Request :=
  {| req_body := text_delivery; req_rawBody := Some "{}"; req_signature := None |}.

(* ------------------------------------------------------------------ *)
(** ** What processing one message may send and store *)

(** The only things the Delivery Dispatcher is ever asked to send while one
    message is processed, between the call indices [first] and [last] and
    with [reqs] the requests made to the Response Gateway meanwhile:
    nothing, one of the two fixed apologies, or the reply followed by the
    second apology - where the reply is the non-empty [response] of the
    body the gateway returned, with a truthy [success], to the one request
    of this run. *)
Definition allowed_dispatch (P : Platform) (account : Account) (from : string)
    (first last : nat) (reqs : list ResponseRequest) (sends : list SendParams)
  : Prop :=
  sends = []
  ∨ sends = [send_to account from apology_exception]
  ∨ sends = [send_to account from apology_gateway]
  ∨ ∃ n req d reply,
      reqs = [req]
      ∧ (first ≤ n < last)%nat
      ∧ response_api P n req = AxOk (Some d)
      ∧ rd_success d = true
      ∧ rd_response d = Some reply
      ∧ reply ≠ ""
      ∧ sends = [send_to account from reply;
                 send_to account from apology_exception].

(** The rows one message can add to [messages]: none, the inbound row, or
    the inbound row and the assistant row, all of this tenant's
    conversation. *)
Definition allowed_rows (account : Account) (message : WhatsAppWebhookMessage)
    (rows : list MessageRow) : Prop :=
  Forall (λ r, m_chatbot_id r = acc_chatbot_id account
               ∧ m_channel r = WHATSAPP
               ∧ m_unique_conv_id r
                 = uniqueConvId_of (msg_from message) (acc_chatbot_id account))
         rows
  ∧ (rows = []
     ∨ (∃ inbound, rows = [inbound] ∧ m_type inbound = user
                   ∧ m_content inbound = messageContent_of message)
     ∨ (∃ inbound reply, rows = [inbound; reply] ∧ m_type inbound = user
                         ∧ m_content inbound = messageContent_of message
                         ∧ m_type reply = assistant)).

(* ------------------------------------------------------------------ *)
(** ** Invariants of a run *)

(** [m] keeps a property of the tables, however it ends. *)
Definition keeps (J : Database → Prop) {A} (m : M A) : Prop :=
  ∀ w, J (w_db w) → J (w_db (m w).2).

(* ------------------------------------------------------------------ *)
(** ** Runs that only log *)

(** From [w] to [w'] nothing was stored, no gateway call was made, nothing
    was dispatched and no message was handled. *)
Definition quiet (w w' : World) : Prop :=
  w_db w' = w_db w
  ∧ gateway_requests (w_trace w') = gateway_requests (w_trace w)
  ∧ dispatched (w_trace w') = dispatched (w_trace w)
  ∧ processed (w_trace w') = processed (w_trace w).

(** The provider message ids of the "Error updating message status" log
    lines: one per refused status UPDATE. *)
Definition status_errors (t : list Event) : list string :=
  omap (λ e, match e with
             | EvLog Error (ErrorUpdatingStatus messageId) => Some messageId
             | _ => None
             end) t.

(** A change the database path skips: no routing key, no active tenant for
    the key, or a field other than "messages". *)
Definition inert (db : Database) (change : WaChange) : Prop :=
  truthy (value_phone_number_id (change_value change)) = false
  ∨ Sql.active_accounts (default "" (value_phone_number_id (change_value change)))
                        db = []
  ∨ change_field change ≠ "messages".

(** The message's timestamp makes a valid [Date]. *)
Definition dated (message : WhatsAppWebhookMessage) : bool :=
  match new_Date (msg_timestamp message) with Some _ => true | None => false end.

(** Every message the no-database path reads - those of the changes whose
    field is "messages" - is dated. *)
Definition change_dated (change : WaChange) : bool :=
  if String.eqb (change_field change) "messages"
  then forallb dated (default [] (value_messages (change_value change)))
  else true.

Definition payload_dated (payload : WhatsAppWebhookPayload) : bool :=
  forallb (λ entry, forallb change_dated (entry_changes entry))
          (payload_entry payload).

(** A text message whose timestamp is not a number. *)
Definition undated_message : WhatsAppWebhookMessage :=
  {| msg_from := "15550001"; msg_id := "wamid.nan"; msg_timestamp := None;
     msg_type := "text"; msg_text_body := Some "hi";
     msg_image_caption := None; msg_video_caption := None;
     msg_document_filename := None;
     msg_location_latitude := "undefined"; msg_location_longitude := "undefined";
     msg_button_text := None; msg_interactive_type := None;
     msg_button_reply_title := None; msg_list_reply_title := None |}.

Definition undated_delivery : WhatsAppWebhookPayload :=
  {| payload_object := Some "whatsapp_business_account";
     payload_entry :=
       [{| entry_id := "waba";
           entry_changes :=
             [{| change_field := "messages";
                 change_value :=
                   {| value_phone_number_id := Some "pn-1";
                      value_contacts := None;
                      value_messages := Some [undated_message];
                      value_statuses := None |} |}] |}] |}.

(* ------------------------------------------------------------------ *)
(** ** Skipped, aborted and dropped deliveries: example data *)

Definition inactive_only_db : Database :=
  {| whatsapp_accounts :=
       [ {| acc_id := "a9"; acc_chatbot_id := "bot9"; acc_phone_number_id := "pn-1";
            acc_access_token := "tok-a9"; acc_waba_id := "waba";
            acc_phone_number := "+1559"; acc_verify_token := None;
            acc_status := "inactive" |} ];
     whatsapp_contacts := []; messages := [];
     chatbot := [ {| cb_id := "bot9"; cb_api_key := Some "key-9" |} ] |}.

Definition rejecting : Platform :=
  {| hmac_sha256_hex := hmac_sha256_hex Demo.platform;
     toISOString := toISOString Demo.platform;
     JSON_stringify_payload := JSON_stringify_payload Demo.platform;
     Date_now := Date_now Demo.platform;
     createId := createId Demo.platform;
     gen_random_uuid := gen_random_uuid Demo.platform;
     getDbClient := Ok true;
     pool_query_rejects := λ _, true;
     response_api := response_api Demo.platform;
     graph_api := graph_api Demo.platform;
     FACEBOOK_APP_SECRET := FACEBOOK_APP_SECRET Demo.platform;
     RESPONSE_API_BASE_URL := RESPONSE_API_BASE_URL Demo.platform |}.

Definition unknown_interactive : WhatsAppWebhookMessage :=
  {| msg_from := "15550001"; msg_id := "wamid.nfm"; msg_timestamp := Some 1700000000;
     msg_type := "interactive"; msg_text_body := None;
     msg_image_caption := None; msg_video_caption := None;
     msg_document_filename := None;
     msg_location_latitude := "undefined"; msg_location_longitude := "undefined";
     msg_button_text := None; msg_interactive_type := Some "nfm_reply";
     msg_button_reply_title := None; msg_list_reply_title := None |}.

(* ------------------------------------------------------------------ *)
(** ** An unusable gateway, a missing API key *)


Definition gateway_timeout : Platform :=
  Demo.make (λ _ _, AxErr "timeout of 30000ms exceeded") Demo.delivers.

Abbreviation gateway_timeout_run :=
  (processIncomingMessage gateway_timeout (Demo.account "a1" "bot1")
     (Demo.text_message "hi") None (Demo.world one_bot_db)).


(* ------------------------------------------------------------------ *)
(** ** The unique index of [whatsapp_contacts] *)

(** The unique index on (chatbot_id, phone_number). *)
Definition contacts_unique (db : Database) : Prop :=
  ∀ chatbotId phone, (length (contact_rows chatbotId phone db) ≤ 1)%nat.

(* ------------------------------------------------------------------ *)
(** ** History rows, and [config/database.ts] *)

(** The rows of one conversation, as the WHERE clause of the history query
    selects them. *)
Definition conversation (chatbotId convId : string) (db : Database)
  : list MessageRow :=
  filter (λ r, Sql.in_conversation chatbotId convId r = true) (messages db).

(** The rows of a conversation created strictly before [r]. *)
Definition earlier_rows (chatbotId convId : string) (db : Database)
    (r : MessageRow) : list MessageRow :=
  filter (λ x, m_created_at x < m_created_at r) (conversation chatbotId convId db).

(** Eleven rows of one conversation, created at 1, 2, ..., 11. *)
Definition long_conversation : Database :=
  {| whatsapp_accounts := []; whatsapp_contacts := [];
     messages := map (λ t, inbound_row ("m" +:+ pretty t) "bot1" t)
                     [1; 2; 3; 4; 5; 6; 7; 8; 9; 10; 11];
     chatbot := [] |}.

Module DatabaseConfig.

(** A pool is known by the connection string it was created with. *)
Record Pool := { connectionString : string }.

(** The environment of the module: [process.env.DATABASE_URL], and what the
    connection test [pool.connect()] of the n-th pool created does ([None]:
    it resolves; [Some msg]: it rejects). *)
Record Env := {
  DATABASE_URL : option string;
  connect_rejects : nat → option string
}.

Inductive Log :=
  | ConnectionEstablished
  | FailedToInitialize (msg : string)
  | DatabaseUrlNotSet.

(** The module variable [pool], the number of pools created so far, and
    what was logged. *)
Record State := {
  pool : option Pool;
  created : nat;
  log : list (level * Log)
}.

Definition logged (l : level) (m : Log) (s : State) : State :=
  {| pool := pool s; created := created s; log := log s ++ [(l, m)] |}.

(** [initializeDatabase()].  The pool is assigned before its connection is
    tested. *)
Definition initializeDatabase (E : Env) (s : State)
  : outcome (option Pool) * State :=
  if negb (bool_decide (is_Some (pool s))) && truthy (DATABASE_URL E) then
    let p := {| connectionString := default "" (DATABASE_URL E) |} in
    let s1 := {| pool := Some p; created := S (created s); log := log s |} in
    match connect_rejects E (created s) with
    | None => (Ok (pool s1), logged Info ConnectionEstablished s1)
    | Some msg => (Throw DbError, logged Error (FailedToInitialize msg) s1)
    end
  else if negb (truthy (DATABASE_URL E)) then
    let s1 := logged Warn DatabaseUrlNotSet s in (Ok (pool s1), s1)
  else (Ok (pool s), s).

(** [getDbClient()] *)
Definition getDbClient (E : Env) (s : State) : outcome (option Pool) * State :=
  if negb (bool_decide (is_Some (pool s))) then
    match initializeDatabase E s with
    | (Ok _, s1) => (Ok (pool s1), s1)
    | (Throw e, s1) => (Throw e, s1)
    end
  else (Ok (pool s), s).

Definition fresh : State := {| pool := None; created := 0; log := [] |}.

(** A database that refuses every connection. *)
Definition unreachable : Env :=
  {| DATABASE_URL := Some "postgres://db.internal/app";
     connect_rejects := λ _, Some "ECONNREFUSED" |}.

End DatabaseConfig.

(* ------------------------------------------------------------------ *)
(** ** Running monadic code *)

Lemma run_bind {A B} (m : M A) (f : A → M B) w :
  (m ≫= f) w = match m w with
               | (Ok a, w') => f a w'
               | (Throw e, w') => (Throw e, w')
               end.
Proof. reflexivity. Qed.

Lemma run_ret {A} (a : A) w : (mret a : M A) w = (Ok a, w).
Proof. reflexivity. Qed.

Ltac unfold_m :=
  unfold mbind, M_bind, mret, M_ret, throw, try_catch, lift, logger, emit,
    next_tick, set_db in *.

(* ------------------------------------------------------------------ *)
(** ** Signature verifier *)

Section Verifier.

Context (P : Platform).

Lemma timingSafeEqual_refl b : timingSafeEqual b b = Ok true.
Proof.
  unfold timingSafeEqual. rewrite Nat.eqb_refl.
  by rewrite bool_decide_eq_true_2.
Qed.

Lemma verify_try_length_mismatch payload signature appSecret digest :
  hmac_sha256_hex P appSecret payload = Ok digest →
  length (Buffer_from signature) ≠ length (Buffer_from ("sha256=" +:+ digest)) →
  verify_try P payload signature appSecret = Ok false.
Proof.
  intros Hd Hlen. unfold verify_try. rewrite Hd. cbv zeta.
  apply Nat.eqb_neq in Hlen. by rewrite Hlen.
Qed.

(** C2: the verifier accepts the signature built by the reference
    construction ["sha256=" + hex(HMAC-SHA256(secret, rawBody))], and does
    so without logging or touching the world. *)
Theorem verify_accepts_reference_signature rawBody secret digest w :
  hmac_sha256_hex P secret rawBody = Ok digest →
  verifyWebhookSignature P rawBody ("sha256=" +:+ digest) secret w = (Ok true, w).
Proof.
  intros Hd. unfold verifyWebhookSignature, verify_try. unfold_m.
  rewrite Hd. cbv zeta. rewrite Nat.eqb_refl. cbn [negb].
  by rewrite timingSafeEqual_refl.
Qed.

(** C3: the verifier is total and never raises: on every input it returns
    a boolean and leaves the tables alone; it returns [false] whenever its
    [try] block throws; and when the provided signature and the expected
    digest string differ in length the [try] block itself returns [false]
    (nothing is thrown, nothing is logged), although the constant-time
    comparison of these two buffers would have thrown. *)
Theorem verify_total_and_short_circuits payload signature secret w :
  ∃ b w',
    verifyWebhookSignature P payload signature secret w = (Ok b, w')
    ∧ w_db w' = w_db w
    ∧ (∀ e, verify_try P payload signature secret = Throw e →
            b = false
            ∧ w_trace w' = w_trace w ++ [EvLog Error SignatureVerificationError])
    ∧ (∀ digest,
         hmac_sha256_hex P secret payload = Ok digest →
         length (Buffer_from signature)
           ≠ length (Buffer_from ("sha256=" +:+ digest)) →
         verify_try P payload signature secret = Ok false
         ∧ b = false ∧ w' = w
         ∧ timingSafeEqual (Buffer_from signature)
                           (Buffer_from ("sha256=" +:+ digest))
           = Throw RangeError).
Proof.
  unfold verifyWebhookSignature. unfold_m.
  destruct (verify_try P payload signature secret) as [b|e] eqn:Hv.
  - exists b, w. split; [reflexivity|]. split; [reflexivity|]. split.
    + intros e He. discriminate.
    + intros digest Hd Hlen.
      rewrite (verify_try_length_mismatch _ _ _ _ Hd Hlen) in Hv.
      inversion Hv; subst. split; [reflexivity|]. split; [reflexivity|].
      split; [reflexivity|]. unfold timingSafeEqual.
      apply Nat.eqb_neq in Hlen. by rewrite Hlen.
  - eexists false, _. split; [reflexivity|]. split; [reflexivity|]. split.
    + intros e' _. split; reflexivity.
    + intros digest Hd Hlen.
      rewrite (verify_try_length_mismatch _ _ _ _ Hd Hlen) in Hv. discriminate.
Qed.

End Verifier.

Lemma verify_accepts_reference_signature_witness :
  verifyWebhookSignature Demo.platform "{}" ("sha256=" +:+ "s3cret:{}") "s3cret"
                         (Demo.world Demo.empty_db)
  = (Ok true, Demo.world Demo.empty_db).
Proof.
  apply (verify_accepts_reference_signature Demo.platform "{}" "s3cret" "s3cret:{}").
  reflexivity.
Defined.

(* ------------------------------------------------------------------ *)
(** ** Facts about traces *)

Lemma gateway_requests_app t1 t2 :
  gateway_requests (t1 ++ t2) = gateway_requests t1 ++ gateway_requests t2.
Proof. apply omap_app. Qed.

Lemma dispatched_app t1 t2 :
  dispatched (t1 ++ t2) = dispatched t1 ++ dispatched t2.
Proof. apply omap_app. Qed.

Lemma is_ai_type_false type :
  type ≠ "text" → type ≠ "button" → type ≠ "interactive" →
  is_ai_type type = false.
Proof.
  intros H1 H2 H3. unfold is_ai_type.
  apply String.eqb_neq in H1, H2, H3. by rewrite H1, H2, H3.
Qed.

(* ------------------------------------------------------------------ *)
(** ** Message types outside text / button / interactive *)

(** C4: a message whose type is none of "text", "button", "interactive"
    (so "audio" in particular) is logged and dropped: processing returns
    normally, issues no POST to the /response endpoint, dispatches nothing,
    and - the early return coming before the first query - never reaches
    storage, so the tables are unchanged. *)
Theorem non_ai_types_never_reach_gateway P account message contacts w :
  msg_type message ≠ "text" →
  msg_type message ≠ "button" →
  msg_type message ≠ "interactive" →
  ∃ w', processIncomingMessage P account message contacts w = (Ok tt, w')
        ∧ gateway_requests (w_trace w') = gateway_requests (w_trace w)
        ∧ dispatched (w_trace w') = dispatched (w_trace w)
        ∧ w_db w' = w_db w ∧ w_tick w' = w_tick w.
Proof.
  intros H1 H2 H3. unfold processIncomingMessage. unfold_m.
  rewrite (is_ai_type_false _ H1 H2 H3). cbn.
  eexists. split; [reflexivity|]. cbn.
  rewrite <- !app_assoc, gateway_requests_app, dispatched_app. cbn.
  by rewrite !app_nil_r.
Qed.

Lemma non_ai_types_never_reach_gateway_witness :
  ∃ w', processIncomingMessage Demo.platform (Demo.account "a1" "bot1")
          audio_message None (Demo.world Demo.empty_db) = (Ok tt, w')
        ∧ gateway_requests (w_trace w') = []
        ∧ dispatched (w_trace w') = []
        ∧ w_db w' = Demo.empty_db ∧ w_tick w' = 0%nat.
Proof.
  apply (non_ai_types_never_reach_gateway Demo.platform (Demo.account "a1" "bot1")
           audio_message None (Demo.world Demo.empty_db));
    cbn; discriminate.
Defined.

(* ------------------------------------------------------------------ *)
(** ** Conversation history *)

#[global] Instance created_le_trans : Transitive Sql.created_le.
Proof. intros a b c. unfold Sql.created_le. lia. Qed.

#[global] Instance created_le_total : Total Sql.created_le.
Proof. intros a b. unfold Sql.created_le. lia. Qed.

Lemma StronglySorted_take {A} (R : relation A) (l : list A) n :
  StronglySorted R l → StronglySorted R (take n l).
Proof.
  intros Hs. rewrite <- (take_drop n l) in Hs.
  by apply StronglySorted_app_1_l in Hs.
Qed.

(** C7: the history handed to the Response Gateway has at most 10 elements;
    the rows it is built from are in ascending order of [created_at]; they
    are rows of the [messages] table of that bot, conversation marker and
    channel; and each is reduced to (role, content) with role "user" for a
    row of type [user] and "assistant" for any other type. *)
Theorem history_bounded_ascending_reduced chatbotId convId db :
  (length (map role_of (Sql.select_history chatbotId convId db)) ≤ 10)%nat
  ∧ StronglySorted Sql.created_le (Sql.select_history chatbotId convId db)
  ∧ Forall (λ r, r ∈ messages db
                 ∧ m_chatbot_id r = chatbotId
                 ∧ m_unique_conv_id r = convId
                 ∧ m_channel r = WHATSAPP)
           (Sql.select_history chatbotId convId db)
  ∧ Forall2 (λ r m, m = (if is_user r then "user" else "assistant", m_content r))
            (Sql.select_history chatbotId convId db)
            (map role_of (Sql.select_history chatbotId convId db)).
Proof.
  unfold Sql.select_history. repeat split.
  - rewrite length_map, length_take. lia.
  - apply StronglySorted_take.
    apply StronglySorted_merge_sort; apply _.
  - apply Forall_take, Forall_forall. intros r Hr.
    rewrite merge_sort_Permutation in Hr.
    apply list_elem_of_filter in Hr as [Hc Hin].
    unfold Sql.in_conversation in Hc.
    apply andb_prop in Hc as [Hc Hch]. apply andb_prop in Hc as [Hb Hu].
    apply String.eqb_eq in Hb, Hu.
    destruct (m_channel r); [discriminate|]. done.
  - apply Forall2_fmap_r, Forall_Forall2_diag, Forall_forall.
    intros r _. unfold role_of, is_user, compose. by destruct (m_type r).
Qed.

(* ------------------------------------------------------------------ *)
(** ** The POST /webhook route *)

(** C9 (as amended): a POST /webhook whose top-level object tag is not
    "whatsapp_business_account" never writes to the store; it is answered
    401 "Invalid signature" when the signature gate rejects it, and 200
    "Not a WhatsApp webhook event" otherwise. *)
Theorem non_whatsapp_object_acknowledged P req w :
  payload_object (req_body req) ≠ Some "whatsapp_business_account" →
  ∃ w', post_webhook P req w
        = (Ok (if signature_gate_rejects P req
               then invalid_signature_reply
               else not_whatsapp_reply), w')
        ∧ w_db w' = w_db w.
Proof.
  intros Hobj. unfold post_webhook, signature_gate_rejects, verifyWebhookSignature.
  unfold_m. rewrite (bool_decide_eq_false_2 _ Hobj). cbn [negb].
  destruct (truthy (req_signature req)); cbn [andb negb];
    [destruct (truthy (FACEBOOK_APP_SECRET P)); cbn [andb negb]|].
  - destruct (verify_try P _ _ _) as [[|]|e]; cbn; eexists; split; reflexivity.
  - eexists; split; reflexivity.
  - eexists; split; reflexivity.
Qed.

Lemma non_whatsapp_object_acknowledged_witness :
  ∃ w', post_webhook Demo.platform page_event_unsigned (Demo.world Demo.empty_db)
        = (Ok not_whatsapp_reply, w')
        ∧ w_db w' = Demo.empty_db.
Proof.
  apply (non_whatsapp_object_acknowledged Demo.platform page_event_unsigned
           (Demo.world Demo.empty_db)).
  cbn. discriminate.
Defined.

(** C9 as stated fails: this request carries the tag "page" and is
    answered 401, not 200 "Not a WhatsApp webhook event". *)
Lemma non_whatsapp_object_can_be_rejected :
  payload_object (req_body page_event_bad_signature)
    ≠ Some "whatsapp_business_account"
  ∧ (post_webhook Demo.platform page_event_bad_signature
                  (Demo.world Demo.empty_db)).1
    = Ok (Json 401 false None (Some "Invalid signature"))
  ∧ (post_webhook Demo.platform page_event_bad_signature
                  (Demo.world Demo.empty_db)).1
    ≠ Ok (Json 200 true (Some "Not a WhatsApp webhook event") None).
Proof.
  split; [discriminate|]. split; [reflexivity|]. vm_compute. discriminate.
Qed.

(** Whatever the background processing does, a WhatsApp delivery that
    passes the signature gate is answered 200 "Webhook received". *)
Lemma post_webhook_acknowledges P req w :
  payload_object (req_body req) = Some "whatsapp_business_account" →
  signature_gate_rejects P req = false →
  ∃ w', post_webhook P req w = (Ok received_reply, w').
Proof.
  intros Hobj Hgate. unfold post_webhook, verifyWebhookSignature.
  unfold signature_gate_rejects in Hgate. unfold_m.
  rewrite (bool_decide_eq_true_2 _ Hobj). cbn [negb].
  destruct (truthy (req_signature req)); cbn [andb negb] in *;
    [destruct (truthy (FACEBOOK_APP_SECRET P)); cbn [andb negb] in *|].
  - destruct (verify_try P _ _ _) as [[|]|e]; try discriminate. cbn.
    destruct (handleWebhookMessage P (req_body req) _) as [[[]|e] w1];
      eexists; reflexivity.
  - cbn. destruct (handleWebhookMessage P (req_body req) _) as [[[]|e] w1];
      eexists; reflexivity.
  - cbn. destruct (handleWebhookMessage P (req_body req) _) as [[[]|e] w1];
      eexists; reflexivity.
Qed.

(* ------------------------------------------------------------------ *)
(** ** Delivery-status events *)

(** C6 (what the code does; the claim fails by a defect of the UPDATE):
    processing a delivery-status event never raises and never changes the
    store.  The UPDATE is sent once and refused - its COALESCE mixes the
    [json] column with a [jsonb] default - and the failure is logged
    ("Error updating message status") and swallowed.  So no row that
    references the event's provider message id gets [status] merged into
    its metadata; when no row references the id the outcome is the same
    no-op.  And a WhatsApp delivery that passes the signature gate is
    answered 200 "Webhook received" whatever its processing does. *)
Theorem status_event_never_changes_the_store account status w :
  ∃ w', processMessageStatus account status w = (Ok tt, w')
    ∧ w_db w' = w_db w
    ∧ w_tick w' = S (w_tick w)
    ∧ w_trace w'
      = w_trace w
        ++ [EvLog Info (MessageStatusUpdate (acc_id account) (st_id status)
                          (st_status status) (st_recipient_id status))]
        ++ (if String.eqb (st_status status) "failed"
            then [EvLog Error (DeliveryFailed (fst <$> head (st_errors status))
                                              (snd <$> head (st_errors status)))]
            else [])
        ++ [EvLog Error (ErrorUpdatingStatus (st_id status))]
    ∧ (∀ P req w0,
         payload_object (req_body req) = Some "whatsapp_business_account" →
         signature_gate_rejects P req = false →
         ∃ w1, post_webhook P req w0 = (Ok received_reply, w1)).
Proof.
  unfold processMessageStatus, update_status_statement, pool_query_refused.
  unfold_m.
  destruct (String.eqb (st_status status) "failed"); cbn.
  - eexists. split; [reflexivity|]. cbn. split; [done|]. split; [done|].
    split; [by rewrite <- !app_assoc|].
    intros P req w0. apply post_webhook_acknowledges.
  - eexists. split; [reflexivity|]. cbn. split; [done|]. split; [done|].
    split; [by rewrite <- !app_assoc|].
    intros P req w0. apply post_webhook_acknowledges.
Qed.

(** C6 as stated fails on the code: two stored rows reference the provider
    id "wamid.in" (the more recent one created at 200); after the "read"
    event for that id both rows are as they were, and neither has a
    [status] member in its metadata. *)
Lemma status_of_referenced_rows_stays_unset :
  st_id read_event = "wamid.in"
  ∧ Forall (λ r, m_metadata r ≫= (λ o, o !! "waMessageId")
                 = Some (JStr "wamid.in"))
           (messages two_rows_one_provider_id)
  ∧ messages (w_db after_read_event)
    = [inbound_row "m1" "bot1" 100; inbound_row "m2" "bot2" 200]
  ∧ Forall (λ r, m_metadata r ≫= (λ o, o !! "status") = None)
           (messages (w_db after_read_event)).
Proof.
  split; [reflexivity|]. split; [|split].
  - repeat constructor.
  - reflexivity.
  - repeat constructor.
Qed.

(* ------------------------------------------------------------------ *)
(** ** Contact upsert *)

Lemma filter_map_preserved {A} (Q : A → Prop) `{∀ x, Decision (Q x)}
    (f : A → A) (l : list A) :
  (∀ x, Q (f x) ↔ Q x) → filter Q (map f l) = map f (filter Q l).
Proof.
  intros Hf. induction l as [|x l IH]; [done|]. cbn [map].
  rewrite !filter_cons.
  pose proof (Hf x) as Hx.
  destruct (decide (Q (f x))) as [Hq|Hq], (decide (Q x)) as [Hq'|Hq'];
    cbn [map]; rewrite IH; tauto.
Qed.

Section Upsert.

Context (P : Platform) (account : Account) (from : string).
Hypothesis accepts : ∀ n, pool_query_rejects P n = false.

Lemma is_contact_of_touch name seen r :
  Sql.is_contact_of (acc_chatbot_id account) from (Sql.touch_contact name seen r)
  = Sql.is_contact_of (acc_chatbot_id account) from r.
Proof. reflexivity. Qed.

Lemma upsert_inserts name ms messageId w :
  contact_rows (acc_chatbot_id account) from (w_db w) = [] →
  ∃ w' row,
    upsertContact P account from name (Some ms) messageId w = (Ok (ct_id row), w')
    ∧ contact_rows (acc_chatbot_id account) from (w_db w') = [row]
    ∧ ct_display_name row = name
    ∧ last_seen_at row = Some (JStr (toISOString P ms)).
Proof.
  intros Hnone. unfold upsertContact, pool_query, createId_, Date_toISOString.
  unfold_m. rewrite !accepts. cbn.
  unfold Sql.select_contact. unfold contact_rows in Hnone. rewrite Hnone. cbn.
  rewrite !accepts. cbn.
  eexists _, (Build_ContactRow (createId P (S (w_tick w))) (acc_chatbot_id account)
                from name
                (new_contact_metadata account from name (toISOString P ms) messageId)).
  split; [reflexivity|]. cbn. unfold contact_rows. cbn.
  rewrite filter_app, Hnone. cbn.
  rewrite decide_True
    by (unfold Sql.is_contact_of; cbn; by rewrite !String.eqb_refl).
  split; [reflexivity|]. split; [reflexivity|].
  unfold last_seen_at, new_contact_metadata. cbn.
  rewrite lookup_insert_ne by done. rewrite lookup_insert_ne by done.
  rewrite lookup_insert_ne by done. by rewrite lookup_insert_eq.
Qed.

Lemma upsert_updates name ms messageId w row :
  contact_rows (acc_chatbot_id account) from (w_db w) = [row] →
  ∃ w',
    upsertContact P account from name (Some ms) messageId w = (Ok (ct_id row), w')
    ∧ contact_rows (acc_chatbot_id account) from (w_db w')
      = [Sql.touch_contact name (toISOString P ms) row].
Proof.
  intros Hone. unfold upsertContact, pool_query, Date_toISOString.
  unfold_m. rewrite !accepts. cbn.
  unfold Sql.select_contact. unfold contact_rows in Hone. rewrite Hone. cbn.
  rewrite !accepts. cbn.
  eexists. split; [reflexivity|]. cbn. unfold contact_rows. cbn.
  rewrite filter_map_preserved.
  2:{ intros r. destruct (String.eqb (ct_id r) (ct_id row)); [|done].
      by rewrite is_contact_of_touch. }
  rewrite Hone. cbn. by rewrite String.eqb_refl.
Qed.

Lemma upsert_each_updates events : ∀ w row,
  contact_rows (acc_chatbot_id account) from (w_db w) = [row] →
  ∃ w' row',
    upsert_each P account from events w
      = (Ok (replicate (length events) (ct_id row)), w')
    ∧ contact_rows (acc_chatbot_id account) from (w_db w') = [row']
    ∧ ct_id row' = ct_id row
    ∧ (∀ e, last events = Some e →
            ct_display_name row' = seen_name e
            ∧ last_seen_at row' = Some (JStr (toISOString P (seen_at e)))).
Proof.
  induction events as [|e rest IH]; intros w row Hone.
  - exists w, row. cbn. repeat split; try done.
  - destruct (upsert_updates (seen_name e) (seen_at e) (seen_message e) w row Hone)
      as (w1 & Hrun & Hrows).
    destruct (IH w1 _ Hrows) as (w2 & row2 & Hrest & Hrows2 & Hid & Hlast).
    exists w2, row2. cbn [upsert_each]. rewrite run_bind, Hrun, run_bind, Hrest.
    split; [reflexivity|]. split; [exact Hrows2|]. split; [exact Hid|].
    intros e' He'. destruct rest as [|e2 rest].
    + cbn in He'. inversion He'; subst e'. cbn in Hrest. inversion Hrest; subst w2.
      rewrite Hrows in Hrows2. inversion Hrows2; subst row2. split; [reflexivity|].
      unfold last_seen_at. cbn. by rewrite lookup_insert_eq.
    + apply Hlast. exact He'.
Qed.

End Upsert.

(** C8: with a database that accepts every statement and at most one
    contact row for the pair to begin with (the unique index on
    (chatbot_id, phone_number)), N >= 1 upserts for one (chatbot, phone
    number) pair return the same contact id N times, leave exactly one row
    for the pair, carrying that id, and the row's "last_seen_at" (and display
    name) are those of the N-th call. *)
Theorem upsert_contact_idempotent P account from events w :
  (∀ n, pool_query_rejects P n = false) →
  (length (contact_rows (acc_chatbot_id account) from (w_db w)) ≤ 1)%nat →
  events ≠ [] →
  ∃ id w' row,
    upsert_each P account from events w = (Ok (replicate (length events) id), w')
    ∧ contact_rows (acc_chatbot_id account) from (w_db w') = [row]
    ∧ ct_id row = id
    ∧ (∀ e, last events = Some e →
            ct_display_name row = seen_name e
            ∧ last_seen_at row = Some (JStr (toISOString P (seen_at e)))).
Proof.
  intros Hacc Huniq Hne.
  destruct (contact_rows (acc_chatbot_id account) from (w_db w))
    as [|row0 [|row1 more]] eqn:Hrows; cbn in Huniq; [| |lia].
  - destruct events as [|e rest]; [done|].
    destruct (upsert_inserts P account from Hacc (seen_name e) (seen_at e)
                (seen_message e) w Hrows) as (w1 & row & Hrun & Hrows1 & Hname & Hseen).
    destruct (upsert_each_updates P account from Hacc rest w1 row Hrows1)
      as (w2 & row2 & Hrest & Hrows2 & Hid & Hlast).
    exists (ct_id row), w2, row2. cbn [upsert_each length replicate].
    rewrite run_bind, Hrun, run_bind, Hrest.
    split; [reflexivity|]. split; [exact Hrows2|]. split; [exact Hid|].
    intros e' He'. destruct rest as [|e2 rest].
    + cbn in He'. inversion He'; subst e'. cbn in Hrest. inversion Hrest; subst w2.
      rewrite Hrows1 in Hrows2. inversion Hrows2; subst row2. by split.
    + apply Hlast. exact He'.
  - destruct (upsert_each_updates P account from Hacc events w row0 Hrows)
      as (w2 & row2 & Hrest & Hrows2 & Hid & Hlast).
    exists (ct_id row0), w2, row2. by repeat split; try apply Hlast.
Qed.

Lemma upsert_contact_idempotent_witness :
  ∃ id w' row,
    upsert_each Demo.platform (Demo.account "a1" "bot1") "15550001" two_visits
                (Demo.world Demo.empty_db)
      = (Ok [id; id], w')
    ∧ contact_rows "bot1" "15550001" (w_db w') = [row]
    ∧ ct_id row = id
    ∧ (∀ e, last two_visits = Some e →
            ct_display_name row = seen_name e
            ∧ last_seen_at row
              = Some (JStr (toISOString Demo.platform (seen_at e)))).
Proof.
  apply (upsert_contact_idempotent Demo.platform (Demo.account "a1" "bot1")
           "15550001" two_visits (Demo.world Demo.empty_db)).
  - intros n. reflexivity.
  - cbn. lia.
  - discriminate.
Defined.

(* ------------------------------------------------------------------ *)
(** ** A weakest-precondition reading of the monad *)

Lemma wp_ret {A} (a : A) Q w : Q (Ok a) w → wp (mret a) Q w.
Proof. done. Qed.

Lemma wp_throw {A} e (Q : outcome A → World → Prop) w :
  Q (Throw e) w → wp (throw e) Q w.
Proof. done. Qed.

Lemma wp_bind {A B} (m : M A) (f : A → M B) Q w :
  wp m (λ r w', match r with
                | Ok a => wp (f a) Q w'
                | Throw e => Q (Throw e) w'
                end) w →
  wp (m ≫= f) Q w.
Proof.
  unfold wp. rewrite run_bind. by destruct (m w) as [[a|e] w'].
Qed.

Lemma wp_try_catch {A} (body : M A) handler Q w :
  wp body (λ r w', match r with
                   | Ok a => Q (Ok a) w'
                   | Throw e => wp (handler e) Q w'
                   end) w →
  wp (try_catch body handler) Q w.
Proof.
  unfold wp, try_catch. by destruct (body w) as [[a|e] w'].
Qed.

Lemma wp_emit e Q w :
  Q (Ok tt) (with_trace (w_trace w ++ [e]) w) → wp (emit e) Q w.
Proof. done. Qed.

Lemma wp_logger l m Q w :
  Q (Ok tt) (with_trace (w_trace w ++ [EvLog l m]) w) → wp (logger l m) Q w.
Proof. done. Qed.

Lemma wp_next_tick Q w :
  Q (Ok (w_tick w)) (with_tick (S (w_tick w)) w) → wp next_tick Q w.
Proof. done. Qed.

Lemma wp_pool_query P {A} (q : nat → Database → A * Database) Q w :
  (if pool_query_rejects P (w_tick w)
   then Q (Throw DbError) (with_tick (S (w_tick w)) w)
   else Q (Ok (q (w_tick w) (w_db w)).1)
          (set_db (q (w_tick w) (w_db w)).2 (with_tick (S (w_tick w)) w))) →
  wp (pool_query P q) Q w.
Proof.
  unfold wp, pool_query. unfold_m. cbn.
  by destruct (pool_query_rejects P (w_tick w)).
Qed.

Lemma wp_pool_query_refused {A} (Q : outcome A → World → Prop) w :
  Q (Throw DbError) (with_tick (S (w_tick w)) w) → wp pool_query_refused Q w.
Proof. done. Qed.

Lemma wp_Date_now P Q w :
  Q (Ok (Date_now P (w_tick w))) (with_tick (S (w_tick w)) w) →
  wp (Date_now_ P) Q w.
Proof. done. Qed.

Lemma wp_createId P Q w :
  Q (Ok (createId P (w_tick w))) (with_tick (S (w_tick w)) w) →
  wp (createId_ P) Q w.
Proof. done. Qed.

Lemma wp_toISOString P d Q w :
  match d with
  | Some ms => Q (Ok (toISOString P ms)) w
  | None => Q (Throw RangeError) w
  end →
  wp (Date_toISOString P d) Q w.
Proof. by destruct d. Qed.

Lemma wp_axios_post_response P url req Q w :
  (let w1 := with_trace (w_trace w ++ [EvResponseApi url req])
                        (with_tick (S (w_tick w)) w) in
   match response_api P (w_tick w) req with
   | AxOk d => Q (Ok d) w1
   | AxErr msg => Q (Throw (AxiosError msg)) w1
   end) →
  wp (axios_post_response P url req) Q w.
Proof.
  unfold wp, axios_post_response. unfold_m. cbn.
  by destruct (response_api P (w_tick w) req).
Qed.

(** [sendWhatsAppMessage] never throws: it makes one Graph API call and
    reports its result. *)
Lemma wp_sendWhatsAppMessage P params (Q : outcome SendResult → World → Prop) w :
  (let url := "https://graph.facebook.com/v18.0/"
              +:+ sp_phoneNumberId params +:+ "/messages" in
   let w1 := with_trace (w_trace w ++ [EvGraphApi url params])
                        (with_tick (S (w_tick w)) w) in
   match graph_api P (w_tick w) params with
   | AxOk messageId =>
       Q (Ok {| sr_success := true; sr_messageId := messageId; sr_error := None |}) w1
   | AxErr msg =>
       Q (Ok {| sr_success := false; sr_messageId := None; sr_error := Some msg |})
         (with_trace (w_trace w1 ++ [EvLog Error (ErrorSendingWhatsApp msg)]) w1)
   end) →
  wp (sendWhatsAppMessage P params) Q w.
Proof.
  unfold wp, sendWhatsAppMessage. unfold_m. cbn.
  by destruct (graph_api P (w_tick w) params).
Qed.

Lemma wp_run {A} (m : M A) Q w r w' :
  m w = (r, w') → wp m Q w → Q r w'.
Proof. unfold wp. by intros ->. Qed.

Ltac wp_reduce :=
  cbv beta iota zeta;
  cbn [w_trace w_db w_tick with_trace with_tick set_db fst snd
       messages whatsapp_accounts whatsapp_contacts chatbot
       Sql.insert_message Sql.insert_contact Sql.update_contact].

Ltac wp_step P :=
  lazymatch goal with
  | |- wp (mret _) _ _ => apply wp_ret
  | |- wp (throw _) _ _ => apply wp_throw
  | |- wp (mbind _ _) _ _ => apply wp_bind
  | |- wp (try_catch _ _) _ _ => apply wp_try_catch
  | |- wp (logger _ _) _ _ => apply wp_logger
  | |- wp (emit _) _ _ => apply wp_emit
  | |- wp (pool_query _ _) _ _ => apply (wp_pool_query P)
  | |- wp pool_query_refused _ _ => apply wp_pool_query_refused
  | |- wp (insert_assistant_statement _ _ _ _ _) _ _ =>
      unfold insert_assistant_statement; apply wp_pool_query_refused
  | |- wp (update_status_statement _ _) _ _ =>
      unfold update_status_statement; apply wp_pool_query_refused
  | |- wp (Date_now_ _) _ _ => apply (wp_Date_now P)
  | |- wp (createId_ _) _ _ => apply (wp_createId P)
  | |- wp (Date_toISOString _ _) _ _ => apply (wp_toISOString P)
  | |- wp (axios_post_response _ _ _) _ _ => apply (wp_axios_post_response P)
  | |- wp (sendWhatsAppMessage _ _) _ _ => apply (wp_sendWhatsAppMessage P)
  | |- wp (if ?b then _ else _) _ _ => destruct b eqn:?
  | |- wp (match ?x with _ => _ end) _ _ => destruct x eqn:?
  | |- (if ?b then _ else _) => destruct b eqn:?
  | |- match ?x with _ => _ end => destruct x eqn:?
  end; wp_reduce.

Create Rewrite HintDb trace.
#[global] Hint Rewrite gateway_requests_app dispatched_app
  @app_nil_r @filter_app : trace.

Ltac trace_simpl :=
  autorewrite with trace;
  cbn [gateway_requests dispatched omap list_omap app];
  autorewrite with trace.

(* ------------------------------------------------------------------ *)
(** ** The Response Gateway reports failure *)

Section GatewayFailure.

Context (P : Platform).
Hypothesis gateway_fails :
  ∀ n req, ∃ d, response_api P n req = AxOk (Some d) ∧ rd_success d = false.

Lemma gateway_failure_wp account message contacts w :
  wp (processIncomingMessage P account message contacts)
     (λ r w',
        gateway_requests (w_trace w') ≠ gateway_requests (w_trace w) →
        r = Ok tt
        ∧ dispatched (w_trace w')
          = dispatched (w_trace w)
            ++ [send_to account (msg_from message) apology_gateway]
        ∧ filter (λ r, is_assistant r = true) (messages (w_db w'))
          = filter (λ r, is_assistant r = true) (messages (w_db w))) w.
Proof.
  unfold processIncomingMessage, respond, upsertContact.
  repeat wp_step P.
  (* every path that ends before the gateway call, and the failure branch *)
  all: try (trace_simpl; done).
  (* the remaining paths contradict [gateway_fails] *)
  all: match goal with
       | H : response_api P ?n ?req = _ |- _ =>
           destruct (gateway_fails n req) as (d & Hd & Hs);
           rewrite Hd in H; first [discriminate | injection H as <-]
       end.
  all: match goal with
       | H : rd_success ?d && _ = true |- _ => rewrite Hs in H; discriminate
       end.
Qed.

End GatewayFailure.

(** C5: if every Response Gateway call completes with success:false, then
    a message whose processing reaches the gateway ends normally, makes the
    Delivery Dispatcher send exactly one message for it - the fixed apology
    text, to the sender, with the tenant's number and token - and appends no
    row of type [assistant]. *)
Theorem gateway_failure_sends_one_apology P account message contacts w r w' :
  (∀ n req, ∃ d, response_api P n req = AxOk (Some d) ∧ rd_success d = false) →
  processIncomingMessage P account message contacts w = (r, w') →
  gateway_requests (w_trace w') ≠ gateway_requests (w_trace w) →
  r = Ok tt
  ∧ dispatched (w_trace w')
    = dispatched (w_trace w)
      ++ [send_to account (msg_from message) apology_gateway]
  ∧ filter (λ r, is_assistant r = true) (messages (w_db w'))
    = filter (λ r, is_assistant r = true) (messages (w_db w)).
Proof.
  intros Hgw Hrun.
  exact (wp_run _ _ _ _ _ Hrun (gateway_failure_wp P Hgw account message contacts w)).
Qed.

Lemma gateway_failure_sends_one_apology_witness :
  gateway_failure_run.1 = Ok tt
  ∧ dispatched (w_trace gateway_failure_run.2)
    = dispatched (w_trace (Demo.world one_bot_db))
      ++ [send_to (Demo.account "a1" "bot1")
                  (msg_from (Demo.text_message "hi")) apology_gateway]
  ∧ filter (λ r, is_assistant r = true) (messages (w_db gateway_failure_run.2))
    = filter (λ r, is_assistant r = true) (messages (w_db (Demo.world one_bot_db))).
Proof.
  refine (gateway_failure_sends_one_apology failing_gateway
            (Demo.account "a1" "bot1") (Demo.text_message "hi") None
            (Demo.world one_bot_db) gateway_failure_run.1 gateway_failure_run.2
            _ _ _).
  - intros n req. eexists. split; reflexivity.
  - apply surjective_pairing.
  - vm_compute. discriminate.
Defined.

(* ------------------------------------------------------------------ *)
(** ** The Response Gateway replies *)

Section GatewaySuccess.

Context (P : Platform).
Hypothesis gateway_replies :
  ∀ n req, ∃ d, response_api P n req = AxOk (Some d)
                ∧ rd_success d = true ∧ truthy (rd_response d) = true.

Lemma truthy_Some (o : option string) :
  truthy o = true → ∃ s, o = Some s ∧ s ≠ "".
Proof.
  destruct o as [s|]; [|discriminate]. cbn. intros H. exists s. split; [done|].
  intros ->. discriminate.
Qed.

Lemma gateway_success_wp account message contacts w :
  wp (processIncomingMessage P account message contacts)
     (λ r w',
        gateway_requests (w_trace w') ≠ gateway_requests (w_trace w) →
        r = Ok tt
        ∧ ∃ n req d reply inbound,
            response_api P n req = AxOk (Some d)
            ∧ rd_response d = Some reply
            ∧ gateway_requests (w_trace w')
              = gateway_requests (w_trace w) ++ [req]
            ∧ dispatched (w_trace w')
              = dispatched (w_trace w)
                ++ [send_to account (msg_from message) reply;
                    send_to account (msg_from message) apology_exception]
            ∧ messages (w_db w') = messages (w_db w) ++ [inbound]
            ∧ m_type inbound = user) w.
Proof.
  unfold processIncomingMessage, respond, upsertContact.
  repeat wp_step P.
  all: try (trace_simpl; done).
  all: match goal with
       | H : response_api P ?n ?req = _ |- _ =>
           destruct (gateway_replies n req) as (d & Hd & Hs & Hr);
           pose proof H as Hcall;
           rewrite Hd in H; first [discriminate | injection H as <-]
       end.
  all: try match goal with
       | H : rd_success ?d && _ = false |- _ => rewrite Hs, Hr in H; discriminate
       end.
  all: intros _; split; [reflexivity|].
  all: destruct (truthy_Some _ Hr) as (reply & Hreply & _).
  all: match type of Hcall with
       | response_api P ?n ?req = _ => exists n, req, d, reply
       end.
  all: eexists; rewrite Hreply; cbn [default from_option id].
  all: split; [exact Hcall|]. all: split; [reflexivity|].
  all: split; [trace_simpl; reflexivity|].
  all: split; [trace_simpl; by rewrite <- ?app_assoc|].
  all: split; reflexivity.
Qed.

End GatewaySuccess.

(** C10 (what the code does; the claim fails by a defect of the INSERT):
    when every Response Gateway call returns success:true with a non-empty
    reply text, a message whose processing reaches the gateway ends
    normally and the reply is handed to the Delivery Dispatcher; then,
    whether that send succeeded or failed, the INSERT of the assistant row
    is refused - it passes the JSON text of the citations for a [text[]]
    column.  So only the inbound row has been appended, no [assistant] row
    exists for the reply, and the generic apology is dispatched after the
    reply. *)
Theorem reply_is_followed_by_apology_and_no_row
    P account message contacts w r w' :
  (∀ n req, ∃ d, response_api P n req = AxOk (Some d)
                 ∧ rd_success d = true ∧ truthy (rd_response d) = true) →
  processIncomingMessage P account message contacts w = (r, w') →
  gateway_requests (w_trace w') ≠ gateway_requests (w_trace w) →
  r = Ok tt
  ∧ ∃ n req d reply inbound,
      response_api P n req = AxOk (Some d)
      ∧ rd_response d = Some reply
      ∧ gateway_requests (w_trace w') = gateway_requests (w_trace w) ++ [req]
      ∧ dispatched (w_trace w')
        = dispatched (w_trace w)
          ++ [send_to account (msg_from message) reply;
              send_to account (msg_from message) apology_exception]
      ∧ messages (w_db w') = messages (w_db w) ++ [inbound]
      ∧ m_type inbound = user.
Proof.
  intros Hgw Hrun.
  exact (wp_run _ _ _ _ _ Hrun (gateway_success_wp P Hgw account message contacts w)).
Qed.

Lemma reply_is_followed_by_apology_and_no_row_witness :
  failed_send_run.1 = Ok tt
  ∧ ∃ n req d reply inbound,
      response_api failing_send n req = AxOk (Some d)
      ∧ rd_response d = Some reply
      ∧ gateway_requests (w_trace failed_send_run.2)
        = gateway_requests (w_trace (Demo.world one_bot_db)) ++ [req]
      ∧ dispatched (w_trace failed_send_run.2)
        = dispatched (w_trace (Demo.world one_bot_db))
          ++ [send_to (Demo.account "a1" "bot1")
                      (msg_from (Demo.text_message "hi")) reply;
              send_to (Demo.account "a1" "bot1")
                      (msg_from (Demo.text_message "hi")) apology_exception]
      ∧ messages (w_db failed_send_run.2)
        = messages (w_db (Demo.world one_bot_db)) ++ [inbound]
      ∧ m_type inbound = user.
Proof.
  refine (reply_is_followed_by_apology_and_no_row failing_send
            (Demo.account "a1" "bot1") (Demo.text_message "hi") None
            (Demo.world one_bot_db) failed_send_run.1 failed_send_run.2
            _ _ _).
  - intros n req. eexists. repeat split; reflexivity.
  - apply surjective_pairing.
  - vm_compute. discriminate.
Defined.

(** C10 as stated fails on the code: the gateway answers success:true with
    the reply "hello" and the send fails; no assistant row is stored (the
    one row of [messages] is the inbound one), and the end user is sent
    the apology after the reply.  With a send that succeeds the outcome is
    the same. *)
Lemma failed_send_stores_no_row_and_apologises :
  (∀ n req, response_api failing_send n req
            = AxOk (Some {| rd_success := true; rd_response := Some "hello";
                            rd_citations := None |}))
  ∧ (∀ n p, ∃ msg, graph_api failing_send n p = AxErr msg)
  ∧ failed_send_run.1 = Ok tt
  ∧ map m_type (messages (w_db failed_send_run.2)) = [user]
  ∧ map sp_message (dispatched (w_trace failed_send_run.2))
    = ["hello"; apology_exception]
  ∧ map m_type
        (messages
           (w_db (processIncomingMessage Demo.platform (Demo.account "a1" "bot1")
                    (Demo.text_message "hi") None (Demo.world one_bot_db)).2))
    = [user]
  ∧ map sp_message
        (dispatched
           (w_trace (processIncomingMessage Demo.platform
                       (Demo.account "a1" "bot1") (Demo.text_message "hi") None
                       (Demo.world one_bot_db)).2))
    = ["hello"; apology_exception].
Proof.
  split; [reflexivity|]. split; [intros n p; eexists; reflexivity|].
  repeat split; vm_compute; reflexivity.
Qed.

(* ------------------------------------------------------------------ *)
(** ** Fan-out over the tenants of one routing key *)

Section FanOut.

Context (P : Platform).
Hypothesis accepts : ∀ n, pool_query_rejects P n = false.

Context (message : WhatsAppWebhookMessage) (body : string) (ms : Z).
Hypothesis is_text : msg_type message = "text".
Hypothesis has_body : msg_text_body message = Some body.
Hypothesis body_not_empty : body ≠ "".
Hypothesis valid_time : new_Date (msg_timestamp message) = Some ms.

Lemma text_content : messageContent_of message = body.
Proof.
  unfold messageContent_of. rewrite is_text, has_body. cbn.
  apply String.eqb_neq in body_not_empty. by rewrite body_not_empty.
Qed.

Lemma process_text_message_wp account contacts w :
  has_api_key (chatbot (w_db w)) account →
  wp (processIncomingMessage P account message contacts)
     (λ r w',
        r = Ok tt
        ∧ chatbot (w_db w') = chatbot (w_db w)
        ∧ whatsapp_accounts (w_db w') = whatsapp_accounts (w_db w)
        ∧ (∃ req,
             gateway_requests (w_trace w') = gateway_requests (w_trace w) ++ [req]
             ∧ rq_chatbotId req = acc_chatbot_id account
             ∧ rq_uniqueClientId req
               = uniqueConvId_of (msg_from message) (acc_chatbot_id account))
        ∧ (∃ row rest,
             messages (w_db w') = messages (w_db w) ++ row :: rest
             ∧ m_type row = user
             ∧ row_key row
               = (acc_chatbot_id account,
                  uniqueConvId_of (msg_from message) (acc_chatbot_id account),
                  body)
             ∧ Forall (λ r, is_user r = false) rest)) w.
Proof.
  intros (c & l & Hsel & Hkey).
  unfold processIncomingMessage, respond, upsertContact.
  rewrite text_content, valid_time, is_text.
  apply String.eqb_neq in body_not_empty. rewrite body_not_empty.
  change (negb (is_ai_type "text")) with false. cbv iota.
  unfold Sql.select_chatbot.
  repeat wp_step P.
  all: try match goal with
       | H : pool_query_rejects P ?n = true |- _ => rewrite accepts in H; discriminate
       end.
  all: try discriminate Hsel.
  all: injection Hsel as -> ->.
  all: try match goal with
       | H : negb (truthy (cb_api_key _)) = true |- _ =>
           rewrite Hkey in H; discriminate
       end.
  all: split; [reflexivity|]; split; [reflexivity|]; split; [reflexivity|].
  all: split;
    [ eexists; split; [trace_simpl; reflexivity|]; split; reflexivity
    | rewrite <- ?app_assoc; eexists _, _; split; [reflexivity|];
      split; [reflexivity|]; split; [reflexivity|]; repeat constructor ].
Qed.

End FanOut.

Section FanOutLoop.

Context (P : Platform).
Hypothesis accepts : ∀ n, pool_query_rejects P n = false.

Context (message : WhatsAppWebhookMessage) (body : string) (ms : Z).
Hypothesis is_text : msg_type message = "text".
Hypothesis has_body : msg_text_body message = Some body.
Hypothesis body_not_empty : body ≠ "".
Hypothesis valid_time : new_Date (msg_timestamp message) = Some ms.

Context (businessAccountId : string) (change : WaChange).
Hypothesis on_messages : change_field change = "messages".
Hypothesis one_message : value_messages (change_value change) = Some [message].
Hypothesis no_statuses : value_statuses (change_value change) = None.

Lemma filter_user_head row (rest : list MessageRow) :
  m_type row = user → Forall (λ r, is_user r = false) rest →
  filter (λ r, is_user r = true) (row :: rest) = [row].
Proof.
  intros Hrow Hrest. rewrite filter_cons, decide_True
    by (unfold is_user; by rewrite Hrow).
  f_equal. induction Hrest as [|r rest Hr _ IH]; [done|].
  rewrite filter_cons, decide_False by (rewrite Hr; discriminate). exact IH.
Qed.

Lemma handle_account_text account w :
  has_api_key (chatbot (w_db w)) account →
  ∃ w' req rows,
    handle_account P businessAccountId change account w = (Ok tt, w')
    ∧ chatbot (w_db w') = chatbot (w_db w)
    ∧ whatsapp_accounts (w_db w') = whatsapp_accounts (w_db w)
    ∧ gateway_requests (w_trace w') = gateway_requests (w_trace w) ++ [req]
    ∧ (rq_chatbotId req, rq_uniqueClientId req)
      = (acc_chatbot_id account, tenant_marker message account)
    ∧ messages (w_db w') = messages (w_db w) ++ rows
    ∧ map row_key (filter (λ r, is_user r = true) rows)
      = [(acc_chatbot_id account, tenant_marker message account, body)].
Proof.
  intros Hkey. unfold handle_account.
  rewrite on_messages, one_message, no_statuses.
  change (String.eqb "messages" "messages") with true. cbv iota.
  cbn [default from_option id for_of].
  set (w1 := with_trace (w_trace w ++ [EvLog Info (ProcessingForAccount (acc_id account) (acc_chatbot_id account))]) w).
  pose proof (process_text_message_wp P accepts message body ms is_text has_body
                body_not_empty valid_time account
                (value_contacts (change_value change)) w1 Hkey) as Hwp.
  unfold wp in Hwp.
  destruct (processIncomingMessage P account message _ w1) as [r w2] eqn:Hrun.
  cbn [fst snd] in Hwp.
  destruct Hwp as (-> & Hbots & Haccs & (req & Hreq & Hbot & Hconv)
                   & (row & rest & Hrows & Htype & Hrk & Hrest)).
  exists w2, req, (row :: rest).
  split.
  { unfold mbind, M_bind, logger, emit. fold w1. unfold with_trace in w1.
    subst w1. rewrite Hrun. reflexivity. }
  subst w1. cbn [w_db w_trace with_trace] in *.
  split; [exact Hbots|]. split; [exact Haccs|]. split.
  { rewrite Hreq, gateway_requests_app. cbn. by rewrite app_nil_r. }
  split; [by rewrite Hbot, Hconv|]. split; [exact Hrows|].
  rewrite (filter_user_head _ _ Htype Hrest). cbn. by rewrite Hrk.
Qed.

Lemma fan_out_loop accounts : ∀ w,
  Forall (has_api_key (chatbot (w_db w))) accounts →
  ∃ w' reqs rows,
    for_of accounts (handle_account P businessAccountId change) w = (Ok tt, w')
    ∧ chatbot (w_db w') = chatbot (w_db w)
    ∧ whatsapp_accounts (w_db w') = whatsapp_accounts (w_db w)
    ∧ gateway_requests (w_trace w') = gateway_requests (w_trace w) ++ reqs
    ∧ map (λ q, (rq_chatbotId q, rq_uniqueClientId q)) reqs
      = map (tenant_call message) accounts
    ∧ messages (w_db w') = messages (w_db w) ++ rows
    ∧ map row_key (filter (λ r, is_user r = true) rows)
      = map (tenant_row message body) accounts.
Proof.
  induction accounts as [|account accounts IH]; intros w Hkeys.
  - exists w, [], []. cbn. by rewrite !app_nil_r.
  - apply Forall_cons in Hkeys as [Hkey Hkeys].
    destruct (handle_account_text account w Hkey)
      as (w1 & req & rows1 & Hrun1 & Hbots1 & Haccs1 & Hreq1 & Hcall1 & Hrows1 & Hkeys1).
    rewrite <- Hbots1 in Hkeys.
    destruct (IH w1 Hkeys)
      as (w2 & reqs & rows2 & Hrun2 & Hbots2 & Haccs2 & Hreq2 & Hcall2 & Hrows2 & Hkeys2).
    exists w2, (req :: reqs), (rows1 ++ rows2).
    cbn [for_of]. rewrite run_bind, Hrun1, Hrun2.
    split; [reflexivity|]. split; [congruence|]. split; [congruence|]. split.
    { rewrite Hreq2, Hreq1, <- app_assoc. reflexivity. }
    split. { cbn [map]. by rewrite Hcall1, Hcall2. }
    split. { rewrite Hrows2, Hrows1, <- app_assoc. reflexivity. }
    rewrite filter_app, map_app, Hkeys1, Hkeys2. reflexivity.
Qed.

End FanOutLoop.

(* ------------------------------------------------------------------ *)
(** ** Every matching tenant is served, whatever happens to the others *)

Lemma processed_app t1 t2 : processed (t1 ++ t2) = processed t1 ++ processed t2.
Proof. apply omap_app. Qed.

#[global] Hint Rewrite processed_app : trace.

Lemma concat_singletons {A B} (f : A → B) (l : list A) :
  concat (map (λ x, [f x]) l) = map f l.
Proof. induction l as [|x l IH]; [done|]. cbn. by rewrite IH. Qed.

Lemma concat_nils {A B} (l : list A) : concat (map (λ _, @nil B) l) = [].
Proof. by induction l. Qed.

Section Isolation.

Context (P : Platform).

Lemma processIncomingMessage_wp account message contacts w :
  wp (processIncomingMessage P account message contacts)
     (λ r w',
        r = Ok tt
        ∧ processed (w_trace w')
          = processed (w_trace w) ++ [(acc_id account, msg_id message)]) w.
Proof.
  unfold processIncomingMessage, respond, upsertContact.
  repeat wp_step P.
  all: split; [reflexivity|].
  all: autorewrite with trace; cbn [processed omap list_omap app];
       autorewrite with trace; reflexivity.
Qed.

(** [processIncomingMessage] never throws - every failure inside it ends
    in its own catch blocks - and logs "New message received" once. *)
Lemma processIncomingMessage_returns account message contacts w :
  ∃ w', processIncomingMessage P account message contacts w = (Ok tt, w')
        ∧ processed (w_trace w')
          = processed (w_trace w) ++ [(acc_id account, msg_id message)].
Proof.
  pose proof (processIncomingMessage_wp account message contacts w) as H.
  unfold wp in H.
  destruct (processIncomingMessage P account message contacts w) as [r w'].
  cbn [fst snd] in H. destruct H as [-> H]. by exists w'.
Qed.

(** [processMessageStatus] never throws either and logs no new message. *)
Lemma processMessageStatus_returns account status w :
  ∃ w', processMessageStatus account status w = (Ok tt, w')
        ∧ processed (w_trace w') = processed (w_trace w).
Proof.
  unfold processMessageStatus, update_status_statement, pool_query_refused.
  unfold_m.
  destruct (String.eqb (st_status status) "failed"); cbn;
    eexists; (split; [reflexivity|]); cbn;
    autorewrite with trace; cbn; by autorewrite with trace.
Qed.

Lemma for_of_returns {A} (body : A → M unit) (obs : A → list (string * string))
    (l : list A) : ∀ w,
  (∀ x w, ∃ w', body x w = (Ok tt, w')
                ∧ processed (w_trace w') = processed (w_trace w) ++ obs x) →
  ∃ w', for_of l body w = (Ok tt, w')
        ∧ processed (w_trace w') = processed (w_trace w) ++ concat (map obs l).
Proof.
  intros w Hbody. revert w. induction l as [|x l IH]; intros w.
  - exists w. cbn. by rewrite app_nil_r.
  - destruct (Hbody x w) as (w1 & Hrun1 & Hobs1).
    destruct (IH w1) as (w2 & Hrun2 & Hobs2).
    exists w2. cbn [for_of]. rewrite run_bind, Hrun1, Hrun2.
    split; [reflexivity|]. cbn. by rewrite Hobs2, Hobs1, <- app_assoc.
Qed.

(** For a "messages" change, one tenant's iteration of the loop processes
    every message of the change for that tenant and returns normally. *)
Lemma handle_account_returns businessAccountId change account w :
  change_field change = "messages" →
  ∃ w', handle_account P businessAccountId change account w = (Ok tt, w')
        ∧ processed (w_trace w')
          = processed (w_trace w)
            ++ map (λ m, (acc_id account, msg_id m))
                   (default [] (value_messages (change_value change))).
Proof.
  intros Hfield. unfold handle_account. rewrite Hfield.
  change (String.eqb "messages" "messages") with true. cbv iota.
  rewrite run_bind. unfold logger at 1, emit at 1.
  set (w0 := {| w_db := w_db w; w_tick := w_tick w; w_trace := _ |}).
  destruct (for_of_returns
              (λ m, processIncomingMessage P account m
                      (value_contacts (change_value change)))
              (λ m, [(acc_id account, msg_id m)])
              (default [] (value_messages (change_value change))) w0)
    as (w1 & Hrun1 & Hobs1).
  { intros m w'. apply processIncomingMessage_returns. }
  destruct (for_of_returns (λ s, processMessageStatus account s) (λ _, [])
              (default [] (value_statuses (change_value change))) w1)
    as (w2 & Hrun2 & Hobs2).
  { intros s w'. destruct (processMessageStatus_returns account s w')
      as (w'' & Hr & Ho). exists w''. by rewrite app_nil_r. }
  exists w2. rewrite run_bind, Hrun1, Hrun2. split; [reflexivity|].
  rewrite Hobs2, Hobs1. subst w0. cbn [w_trace].
  rewrite processed_app. cbn [processed omap list_omap].
  by rewrite concat_singletons, concat_nils, !app_nil_r.
Qed.

(** In general: for a "messages" change with a routing key, once the
    tenant lookup is accepted, every message of the change is processed
    once for every active tenant row matching the key - tenant by tenant
    in row order, message by message - and the loop returns normally
    whatever happened while serving any one of them. *)
Lemma handle_change_serves_every_tenant businessAccountId change key w :
  change_field change = "messages" →
  value_phone_number_id (change_value change) = Some key →
  key ≠ "" →
  pool_query_rejects P (w_tick w) = false →
  ∃ w', handle_change P businessAccountId change w = (Ok tt, w')
        ∧ processed (w_trace w')
          = processed (w_trace w)
            ++ concat (map (λ account,
                              map (λ m, (acc_id account, msg_id m))
                                  (default [] (value_messages (change_value change))))
                           (Sql.active_accounts key (w_db w))).
Proof.
  intros Hfield Hkey Hne Hacc. unfold handle_change. rewrite Hkey.
  apply String.eqb_neq in Hne. cbn [truthy]. rewrite Hne.
  cbn [negb default from_option id].
  rewrite run_bind. unfold logger at 1, emit at 1.
  rewrite run_bind. unfold pool_query at 1. rewrite run_bind.
  unfold next_tick at 1. cbn [w_tick w_db w_trace]. rewrite Hacc.
  cbn [fst snd set_db w_db w_tick w_trace].
  set (w0 := {| w_db := w_db w; w_tick := S (w_tick w); w_trace := _ |}).
  destruct (for_of_returns (handle_account P businessAccountId change)
              (λ account, map (λ m, (acc_id account, msg_id m))
                              (default [] (value_messages (change_value change))))
              (Sql.active_accounts key (w_db w)) w0) as (w1 & Hrun & Hobs).
  { intros account w'. by apply handle_account_returns. }
  destruct (Sql.active_accounts key (w_db w)) as [|a accounts] eqn:Haccs.
  - eexists. unfold logger, emit. split; [reflexivity|]. cbn.
    rewrite !processed_app. cbn. by rewrite !app_nil_r.
  - exists w1. split; [exact Hrun|]. rewrite Hobs. subst w0. cbn [w_trace].
    rewrite processed_app. cbn [processed omap list_omap]. by rewrite app_nil_r.
Qed.

Lemma handleWebhookMessage_one_change payload entryId change w w' :
  getDbClient P = Ok true →
  payload_entry payload = [{| entry_id := entryId; entry_changes := [change] |}] →
  handle_change P entryId change w = (Ok tt, w') →
  handleWebhookMessage P payload w = (Ok tt, w').
Proof.
  intros Hpool Hentry Hrun. unfold handleWebhookMessage. rewrite Hpool, Hentry.
  unfold lift, try_catch, mbind at 1, M_bind at 1.
  cbn [negb for_of entry_changes entry_id].
  by rewrite !run_bind, Hrun.
Qed.

End Isolation.

(** C1: with a pool, a store that accepts every statement, and a "messages"
    change carrying one non-empty text message (valid timestamp, no
    statuses) whose routing key matches N >= 1 active tenant rows, each with
    a chatbot that has an API key: the delivery is processed once per
    matching tenant, in row order ("New message received" is logged once
    for each).  The Response Gateway is called exactly N times, the i-th
    call for the i-th tenant's chatbot and conversation marker; and exactly
    N inbound ([user]) rows are appended, the i-th with the i-th tenant's
    chatbot id and marker and the message text. *)
Theorem each_tenant_gets_row_and_gateway_call
    P payload entryId change message body ms key w :
  getDbClient P = Ok true →
  (∀ n, pool_query_rejects P n = false) →
  payload_entry payload = [{| entry_id := entryId; entry_changes := [change] |}] →
  change_field change = "messages" →
  value_phone_number_id (change_value change) = Some key →
  key ≠ "" →
  value_messages (change_value change) = Some [message] →
  value_statuses (change_value change) = None →
  msg_type message = "text" →
  msg_text_body message = Some body →
  body ≠ "" →
  new_Date (msg_timestamp message) = Some ms →
  Sql.active_accounts key (w_db w) ≠ [] →
  Forall (has_api_key (chatbot (w_db w))) (Sql.active_accounts key (w_db w)) →
  ∃ w' reqs rows,
    handleWebhookMessage P payload w = (Ok tt, w')
    ∧ processed (w_trace w')
      = processed (w_trace w)
        ++ map (λ account, (acc_id account, msg_id message))
               (Sql.active_accounts key (w_db w))
    ∧ gateway_requests (w_trace w') = gateway_requests (w_trace w) ++ reqs
    ∧ map (λ q, (rq_chatbotId q, rq_uniqueClientId q)) reqs
      = map (tenant_call message) (Sql.active_accounts key (w_db w))
    ∧ messages (w_db w') = messages (w_db w) ++ rows
    ∧ map row_key (filter (λ r, is_user r = true) rows)
      = map (tenant_row message body) (Sql.active_accounts key (w_db w)).
Proof.
  intros Hpool Hacc Hentry Hfield Hkey Hne Hmsgs Hst Htype Hbody Hbne Hts Hn Hkeys.
  destruct (handle_change_serves_every_tenant P entryId change key w
              Hfield Hkey Hne (Hacc _)) as (w2 & Hchange & Hserved).
  pose proof (handleWebhookMessage_one_change P payload entryId change w w2
                Hpool Hentry Hchange) as Hrun.
  set (w1 := with_tick (S (w_tick w))
               (with_trace (w_trace w ++ [EvLog Info (ProcessingPhoneNumberId key)]) w)).
  destruct (fan_out_loop P Hacc message body ms Htype Hbody Hbne Hts entryId change
              Hfield Hmsgs Hst (Sql.active_accounts key (w_db w)) w1 Hkeys)
    as (w3 & reqs & rows & Hloop & _ & _ & Hreqs & Hcalls & Hrows & Hrk).
  assert (w3 = w2) as ->.
  { revert Hchange. unfold handle_change. rewrite Hkey.
    pose proof Hne as Hne'. apply String.eqb_neq in Hne'.
    cbn [truthy]. rewrite Hne'. cbn [negb default from_option id].
    rewrite run_bind. unfold logger at 1, emit at 1.
    rewrite run_bind. unfold pool_query at 1. rewrite run_bind.
    unfold next_tick at 1. cbn [w_tick w_db w_trace]. rewrite Hacc.
    cbn [fst snd set_db w_db w_tick w_trace].
    destruct (Sql.active_accounts key (w_db w)) as [|a accs] eqn:Haccs; [done|].
    fold w1 in Hloop. unfold w1, with_tick, with_trace in Hloop.
    cbn [w_db w_tick w_trace] in Hloop. unfold set_db. cbn [w_db w_tick w_trace].
    rewrite Hloop. congruence. }
  exists w2, reqs, rows. split; [exact Hrun|]. split.
  { rewrite Hserved, Hmsgs. cbn [default from_option id].
    f_equal. clear. induction (Sql.active_accounts key (w_db w)); [done|].
    cbn. by f_equal. }
  subst w1. cbn [w_db w_trace with_tick with_trace] in *.
  split. { rewrite Hreqs, gateway_requests_app. cbn. by rewrite app_nil_r. }
  repeat split; assumption.
Qed.

Lemma each_tenant_gets_row_and_gateway_call_witness :
  ∃ w' reqs rows,
    handleWebhookMessage Demo.platform text_delivery (Demo.world shared_number_db)
      = (Ok tt, w')
    ∧ processed (w_trace w')
      = processed (w_trace (Demo.world shared_number_db))
        ++ map (λ account, (acc_id account, msg_id (Demo.text_message "hi")))
               (Sql.active_accounts "pn-1" (w_db (Demo.world shared_number_db)))
    ∧ gateway_requests (w_trace w')
      = gateway_requests (w_trace (Demo.world shared_number_db)) ++ reqs
    ∧ map (λ q, (rq_chatbotId q, rq_uniqueClientId q)) reqs
      = map (tenant_call (Demo.text_message "hi"))
            (Sql.active_accounts "pn-1" (w_db (Demo.world shared_number_db)))
    ∧ messages (w_db w')
      = messages (w_db (Demo.world shared_number_db)) ++ rows
    ∧ map row_key (filter (λ r, is_user r = true) rows)
      = map (tenant_row (Demo.text_message "hi") "hi")
            (Sql.active_accounts "pn-1" (w_db (Demo.world shared_number_db))).
Proof.
  refine (each_tenant_gets_row_and_gateway_call Demo.platform text_delivery
            "waba" text_change (Demo.text_message "hi") "hi" 1700000000000 "pn-1"
            (Demo.world shared_number_db) _ _ _ _ _ _ _ _ _ _ _ _ _ _);
    try reflexivity; try discriminate.
  repeat (constructor; [eexists _, _; split; reflexivity|]). constructor.
Defined.

(** The same delivery, evaluated: two tenants share the routing key "pn-1";
    the gateway is called for "bot1" and then for "bot2", and each bot gets
    its own inbound row under its own conversation marker. *)
Example two_tenants_share_a_number :
  map rq_chatbotId
      (gateway_requests
         (w_trace (handleWebhookMessage Demo.platform text_delivery
                     (Demo.world shared_number_db)).2))
  = ["bot1"; "bot2"]
  ∧ map row_key
        (filter (λ r, is_user r = true)
           (messages
              (w_db (handleWebhookMessage Demo.platform text_delivery
                       (Demo.world shared_number_db)).2)))
    = [("bot1", "whatsapp_15550001_bot1", "hi");
       ("bot2", "whatsapp_15550001_bot2", "hi")].
Proof. split; vm_compute; reflexivity. Qed.

(* ================================================================== *)
(** * Further properties: the handshake, both routes, runs of the
      handlers under every behaviour of the platform, the connection pool *)

(* ------------------------------------------------------------------ *)
(** ** [handleWebhookVerify] and the GET /webhook route *)

Lemma accounts_with_token_nonempty db verifyToken :
  accounts_with_token verifyToken db ≠ [] ↔ token_of_active_account db verifyToken.
Proof.
  unfold accounts_with_token, token_of_active_account. split.
  - intros Hne.
    destruct (filter _ (whatsapp_accounts db)) as [|a l] eqn:Hf; [done|].
    assert (a ∈ filter (λ a, bool_decide (acc_verify_token a = verifyToken)
                            && bool_decide (verifyToken ≠ None)
                            && String.eqb (acc_status a) "active" = true)
                       (whatsapp_accounts db)) as Hin
      by (rewrite Hf; apply list_elem_of_here).
    apply list_elem_of_filter in Hin as [Hp Hin].
    apply andb_prop in Hp as [Hp Hact]. apply andb_prop in Hp as [Htok Hsome].
    apply bool_decide_eq_true_1 in Htok, Hsome. apply String.eqb_eq in Hact.
    destruct verifyToken as [token|]; [|done].
    by exists token, a.
  - intros (token & a & -> & Hin & Htok & Hact).
    assert (a ∈ filter (λ a, bool_decide (acc_verify_token a = Some token)
                            && bool_decide (Some token ≠ None)
                            && String.eqb (acc_status a) "active" = true)
                       (whatsapp_accounts db)) as Hf.
    { apply list_elem_of_filter. split; [|done].
      rewrite Hact, Htok. rewrite !bool_decide_eq_true_2 by done. done. }
    destruct (filter _ (whatsapp_accounts db)) as [|a' l]; [by inversion Hf|done].
Qed.

(** X1: a handshake whose mode is not "subscribe" is refused with 403
    "Forbidden" whatever the token, before any token lookup: the world,
    call counter included, is unchanged. *)
Theorem get_webhook_refuses_other_modes P V mode verifyToken challenge w :
  mode ≠ Some "subscribe" →
  ∃ logs, get_webhook P V mode verifyToken challenge w = (forbidden, logs, w).
Proof.
  intros Hmode. unfold get_webhook.
  rewrite (bool_decide_eq_false_2 _ Hmode). cbn. eauto.
Qed.

Lemma get_webhook_refuses_other_modes_witness :
  ∃ logs, get_webhook Demo.platform no_env_tokens (Some "unsubscribe")
            (Some "vt-1") (Some "abc123") (Demo.world seeded_db)
          = (forbidden, logs, Demo.world seeded_db).
Proof.
  apply (get_webhook_refuses_other_modes Demo.platform no_env_tokens
           (Some "unsubscribe") (Some "vt-1") (Some "abc123")
           (Demo.world seeded_db)).
  discriminate.
Defined.

(** X2: with a pool and an accepted lookup, a "subscribe" handshake is
    answered 200 with exactly the challenge if the token is the verify
    token of an active account, and 403 "Forbidden" otherwise (unknown
    token, token of an inactive account, no token). *)
Theorem get_webhook_checks_active_accounts P V verifyToken challenge w :
  getDbClient P = Ok true →
  pool_query_rejects P (w_tick w) = false →
  (token_of_active_account (w_db w) verifyToken →
   (get_webhook P V (Some "subscribe") verifyToken challenge w).1.1
   = Text 200 challenge)
  ∧ (¬ token_of_active_account (w_db w) verifyToken →
     (get_webhook P V (Some "subscribe") verifyToken challenge w).1.1
     = forbidden).
Proof.
  intros Hpool Hacc. unfold get_webhook, handleWebhookVerify, pool_query.
  unfold_m. rewrite Hpool, Hacc. cbn.
  pose proof (accounts_with_token_nonempty (w_db w) verifyToken) as Hiff.
  destruct (accounts_with_token verifyToken (w_db w)) as [|a l]; cbn.
  - split; [|done]. intros H. apply Hiff in H. done.
  - split; [done|]. intros H. exfalso. apply H, Hiff. done.
Qed.

Lemma get_webhook_checks_active_accounts_witness :
  (token_of_active_account (w_db (Demo.world seeded_db)) (Some "vt-1") →
   (get_webhook Demo.platform no_env_tokens (Some "subscribe") (Some "vt-1")
                (Some "abc123") (Demo.world seeded_db)).1.1
   = Text 200 (Some "abc123"))
  ∧ (¬ token_of_active_account (w_db (Demo.world seeded_db)) (Some "vt-1") →
     (get_webhook Demo.platform no_env_tokens (Some "subscribe") (Some "vt-1")
                  (Some "abc123") (Demo.world seeded_db)).1.1
     = forbidden).
Proof.
  apply (get_webhook_checks_active_accounts Demo.platform no_env_tokens
           (Some "vt-1") (Some "abc123") (Demo.world seeded_db));
    reflexivity.
Defined.

(** X3: without a pool the handshake falls back to the environment: it is
    answered 200 with the challenge exactly when a token is configured
    ([WHATSAPP_VERIFY_TOKEN], else [WEBHOOK_VERIFY_TOKEN]) and the request
    carries that very token; with no token configured every handshake is
    refused.  The world is unchanged. *)
Theorem get_webhook_falls_back_to_env_token P V verifyToken challenge w :
  getDbClient P = Ok false →
  ∃ logs,
    get_webhook P V (Some "subscribe") verifyToken challenge w
    = (if truthy (expectedToken_of V)
          && bool_decide (verifyToken = expectedToken_of V)
       then Text 200 challenge else forbidden,
       logs, w).
Proof.
  intros Hpool. unfold get_webhook, handleWebhookVerify. rewrite Hpool. cbn.
  destruct (truthy (expectedToken_of V)); cbn; [|eauto].
  destruct (bool_decide (verifyToken = expectedToken_of V)); cbn; eauto.
Qed.

Lemma get_webhook_falls_back_to_env_token_witness :
  ∃ logs,
    get_webhook no_pool env_token (Some "subscribe") (Some "env-token")
                (Some "abc123") (Demo.world seeded_db)
    = (if truthy (expectedToken_of env_token)
          && bool_decide (Some "env-token" = expectedToken_of env_token)
       then Text 200 (Some "abc123") else forbidden,
       logs, Demo.world seeded_db).
Proof.
  apply (get_webhook_falls_back_to_env_token no_pool env_token
           (Some "env-token") (Some "abc123") (Demo.world seeded_db)).
  reflexivity.
Defined.

(** X4: whatever the platform does (no pool, a rejected [getDbClient], a
    rejected lookup), the handshake is answered either 200 with the
    request's own challenge or 403 "Forbidden", and it never writes: tables
    and trace are as before. *)
Theorem get_webhook_answers_200_or_403 P V mode verifyToken challenge w :
  ∃ reply logs w',
    get_webhook P V mode verifyToken challenge w = (reply, logs, w')
    ∧ (reply = Text 200 challenge ∨ reply = forbidden)
    ∧ w_db w' = w_db w
    ∧ w_trace w' = w_trace w.
Proof.
  unfold get_webhook, handleWebhookVerify, pool_query. unfold_m.
  destruct (bool_decide (mode = Some "subscribe")); cbn; [|eauto 10].
  destruct (getDbClient P) as [[|]|e]; cbn; [| |eauto 10].
  - destruct (pool_query_rejects P (w_tick w)); cbn; [eauto 10|].
    destruct (accounts_with_token verifyToken (w_db w)); cbn; eauto 10.
  - destruct (truthy (expectedToken_of V)); cbn; [|eauto 10].
    destruct (bool_decide (verifyToken = expectedToken_of V)); cbn; eauto 10.
Qed.

(* ------------------------------------------------------------------ *)
(** ** More on the signature verifier and the POST route *)

Lemma list_byte_of_string_inj s1 s2 :
  list_byte_of_string s1 = list_byte_of_string s2 → s1 = s2.
Proof.
  intros H. rewrite <- (string_of_list_byte_of_string s1),
    <- (string_of_list_byte_of_string s2). by rewrite H.
Qed.

(** X5: the verifier returns [true] only for the reference signature: it
    accepts exactly when the HMAC was computed and the provided signature
    is "sha256=" followed by its hex digest. *)
Theorem verify_accepts_only_reference_signature P payload signature secret w :
  (verifyWebhookSignature P payload signature secret w).1 = Ok true
  ↔ ∃ digest, hmac_sha256_hex P secret payload = Ok digest
              ∧ signature = "sha256=" +:+ digest.
Proof.
  split.
  - unfold verifyWebhookSignature, verify_try, timingSafeEqual. unfold_m.
    destruct (hmac_sha256_hex P secret payload) as [digest|e]; cbn; [|discriminate].
    destruct (Nat.eqb _ _); cbn; [|discriminate].
    intros H. exists digest. split; [done|].
    injection H as H. apply bool_decide_eq_true_1 in H.
    by apply list_byte_of_string_inj.
  - intros (digest & Hd & ->).
    unfold verifyWebhookSignature, verify_try. unfold_m.
    rewrite Hd. cbv zeta. rewrite Nat.eqb_refl. cbn [negb].
    by rewrite timingSafeEqual_refl.
Qed.

(** X6: the POST route never fails and never answers anything but its three
    documented replies: 401 "Invalid signature", 200 "Not a WhatsApp
    webhook event", 200 "Webhook received" - whatever the payload and
    whatever the processing it starts runs into. *)
Theorem post_webhook_has_three_replies P req w :
  ∃ reply w',
    post_webhook P req w = (Ok reply, w')
    ∧ (reply = invalid_signature_reply
       ∨ reply = not_whatsapp_reply
       ∨ reply = received_reply).
Proof.
  unfold post_webhook, verifyWebhookSignature. unfold_m.
  assert (Hcont : ∀ w0,
    ∃ reply w',
      (if negb (bool_decide (payload_object (req_body req)
                             = Some "whatsapp_business_account"))
       then λ w1, (Ok (Json 200 true (Some "Not a WhatsApp webhook event") None),
                   {| w_db := w_db w1; w_tick := w_tick w1;
                      w_trace := w_trace w1
                        ++ [EvLog Warn (NotAWhatsAppEvent
                                          (payload_object (req_body req)))] |})
       else λ w1,
         match
           match handleWebhookMessage P (req_body req) w1 with
           | (Ok a, w') => (Ok a, w')
           | (Throw _, w') =>
               (Ok (), {| w_db := w_db w'; w_tick := w_tick w';
                          w_trace := w_trace w'
                            ++ [EvLog Error ErrorProcessingWebhook] |})
           end
         with
         | (Ok _, w') => (Ok (Json 200 true (Some "Webhook received") None), w')
         | (Throw e, w') => (Throw e, w')
         end) w0
      = (Ok reply, w')
      ∧ (reply = invalid_signature_reply ∨ reply = not_whatsapp_reply
         ∨ reply = received_reply)).
  { intros w0. destruct (bool_decide _); cbn.
    - destruct (handleWebhookMessage P (req_body req) w0) as [[[]|e] w1];
        eexists _, _; (split; [reflexivity|]); auto.
    - eexists _, _. split; [reflexivity|]. auto. }
  destruct (truthy (req_signature req)); cbn [andb negb];
    [destruct (truthy (FACEBOOK_APP_SECRET P)); cbn [andb negb]|].
  - destruct (verify_try P _ _ _) as [[|]|e]; cbn.
    + apply Hcont.
    + eexists _, _. split; [reflexivity|]. auto.
    + eexists _, _. split; [reflexivity|]. auto.
  - cbn. apply Hcont.
  - cbn. apply Hcont.
Qed.

(** X7: a delivery that the signature gate rejects is answered 401 and is
    not processed at all, whatever its payload: the tables and the call
    counter are unchanged, no gateway call is made, nothing is dispatched,
    no message is handled. *)
Theorem rejected_signature_stops_processing P req w :
  signature_gate_rejects P req = true →
  ∃ w', post_webhook P req w = (Ok invalid_signature_reply, w')
        ∧ w_db w' = w_db w
        ∧ w_tick w' = w_tick w
        ∧ gateway_requests (w_trace w') = gateway_requests (w_trace w)
        ∧ dispatched (w_trace w') = dispatched (w_trace w)
        ∧ processed (w_trace w') = processed (w_trace w).
Proof.
  unfold signature_gate_rejects. intros Hgate.
  apply andb_prop in Hgate as [Hgate Hbad]. apply andb_prop in Hgate as [Hsig Hsec].
  unfold post_webhook, verifyWebhookSignature. unfold_m.
  rewrite Hsig, Hsec. cbn [andb].
  destruct (verify_try P _ _ _) as [[|]|e]; try discriminate; cbn.
  - eexists. split; [reflexivity|]. cbn.
    rewrite <- !app_assoc, gateway_requests_app, dispatched_app, processed_app.
    cbn. by rewrite !app_nil_r.
  - eexists. split; [reflexivity|]. cbn.
    rewrite <- !app_assoc, gateway_requests_app, dispatched_app, processed_app.
    cbn. by rewrite !app_nil_r.
Qed.

Lemma rejected_signature_stops_processing_witness :
  ∃ w', post_webhook Demo.platform forged_delivery (Demo.world shared_number_db)
        = (Ok invalid_signature_reply, w')
        ∧ w_db w' = w_db (Demo.world shared_number_db)
        ∧ w_tick w' = w_tick (Demo.world shared_number_db)
        ∧ gateway_requests (w_trace w')
          = gateway_requests (w_trace (Demo.world shared_number_db))
        ∧ dispatched (w_trace w') = dispatched (w_trace (Demo.world shared_number_db))
        ∧ processed (w_trace w') = processed (w_trace (Demo.world shared_number_db)).
Proof.
  apply (rejected_signature_stops_processing Demo.platform forged_delivery
           (Demo.world shared_number_db)).
  reflexivity.
Defined.

(** X8: the signature is only checked when the header is present.  A
    WhatsApp delivery without the [x-hub-signature-256] header is answered
    200 "Webhook received" and processed like any other - the final tables,
    gateway calls and dispatches are those of [handleWebhookMessage] on its
    payload - even when [FACEBOOK_APP_SECRET] is configured. *)
Theorem unsigned_delivery_is_processed P req w :
  truthy (req_signature req) = false →
  payload_object (req_body req) = Some "whatsapp_business_account" →
  ∃ w',
    post_webhook P req w = (Ok received_reply, w')
    ∧ w_db w'
      = w_db (handleWebhookMessage P (req_body req)
                (with_trace (w_trace w ++ [EvLog Info PostReceived]) w)).2
    ∧ gateway_requests (w_trace w')
      = gateway_requests
          (w_trace (handleWebhookMessage P (req_body req)
                      (with_trace (w_trace w ++ [EvLog Info PostReceived]) w)).2)
    ∧ dispatched (w_trace w')
      = dispatched
          (w_trace (handleWebhookMessage P (req_body req)
                      (with_trace (w_trace w ++ [EvLog Info PostReceived]) w)).2).
Proof.
  intros Hsig Hobj. unfold post_webhook. unfold_m. rewrite Hsig. cbn [andb].
  rewrite (bool_decide_eq_true_2 _ Hobj). cbn [negb]. unfold with_trace. cbn.
  destruct (handleWebhookMessage P (req_body req) _) as [[[]|e] w1]; cbn.
  - eexists. split; [reflexivity|]. done.
  - eexists. split; [reflexivity|]. cbn.
    rewrite gateway_requests_app, dispatched_app. cbn. by rewrite !app_nil_r.
Qed.

Lemma unsigned_delivery_is_processed_witness :
  FACEBOOK_APP_SECRET Demo.platform = Some "s3cret"
  ∧ ∃ w',
    post_webhook Demo.platform unsigned_delivery (Demo.world shared_number_db)
    = (Ok received_reply, w')
    ∧ w_db w'
      = w_db (handleWebhookMessage Demo.platform (req_body unsigned_delivery)
                (with_trace (w_trace (Demo.world shared_number_db)
                             ++ [EvLog Info PostReceived])
                            (Demo.world shared_number_db))).2
    ∧ gateway_requests (w_trace w')
      = gateway_requests
          (w_trace (handleWebhookMessage Demo.platform (req_body unsigned_delivery)
                      (with_trace (w_trace (Demo.world shared_number_db)
                                   ++ [EvLog Info PostReceived])
                                  (Demo.world shared_number_db))).2)
    ∧ dispatched (w_trace w')
      = dispatched
          (w_trace (handleWebhookMessage Demo.platform (req_body unsigned_delivery)
                      (with_trace (w_trace (Demo.world shared_number_db)
                                   ++ [EvLog Info PostReceived])
                                  (Demo.world shared_number_db))).2).
Proof.
  split; [reflexivity|].
  apply (unsigned_delivery_is_processed Demo.platform unsigned_delivery
           (Demo.world shared_number_db)); reflexivity.
Defined.

(* ------------------------------------------------------------------ *)
(** ** What processing one message can and cannot do *)

Section Frame.

Context (P : Platform).

Lemma processIncomingMessage_frame_wp account message contacts w :
  wp (processIncomingMessage P account message contacts)
     (λ r w',
        whatsapp_accounts (w_db w') = whatsapp_accounts (w_db w)
        ∧ chatbot (w_db w') = chatbot (w_db w)
        ∧ (∃ rows, messages (w_db w') = messages (w_db w) ++ rows
                   ∧ allowed_rows account message rows)
        ∧ (∃ reqs sends,
             gateway_requests (w_trace w') = gateway_requests (w_trace w) ++ reqs
             ∧ (length reqs ≤ 1)%nat
             ∧ dispatched (w_trace w') = dispatched (w_trace w) ++ sends
             ∧ allowed_dispatch P account (msg_from message)
                                (w_tick w) (w_tick w') reqs sends)) w.
Proof.
  unfold processIncomingMessage, respond, upsertContact.
  repeat wp_step P.
  all: split; [reflexivity|]; split; [reflexivity|].
  all: split;
    [ rewrite <- ?app_assoc; cbn [app];
      first [ exists []; split; [by rewrite app_nil_r|];
              split; [constructor | by left]
            | eexists; split; [reflexivity|];
              split; [repeat constructor|];
              right; left; eexists; split; [reflexivity|];
              split; reflexivity ]
    | ].
  all: trace_simpl; rewrite <- ?app_assoc; cbn [app].
  all: eexists _, _.
  all: split; [first [reflexivity | symmetry; apply app_nil_r]|].
  all: split; [cbn; lia|].
  all: split; [first [reflexivity | symmetry; apply app_nil_r]|].
  all: unfold allowed_dispatch.
  all: first
    [ left; reflexivity
    | right; left; reflexivity
    | right; right; left; reflexivity
    | right; right; right;
      match goal with
      | Hc : response_api P ?n ?req = AxOk (Some ?d),
        Hb : rd_success ?d && truthy (rd_response ?d) = true |- _ =>
          apply andb_prop in Hb as [Hs Ht];
          destruct (truthy_Some _ Ht) as (reply & Hreply & Hne);
          exists n, req, d, reply; rewrite Hreply;
          cbn [default from_option id];
          split; [reflexivity|]; split; [lia|]; split; [exact Hc|];
          split; [exact Hs|]; split; [reflexivity|]; split; [exact Hne|];
          reflexivity
      end ].
Qed.

End Frame.

(** X9: processing one message never raises, whatever the database, the
    Response Gateway and the provider do: every failure ends in the
    handler's own catch blocks, so one message cannot abort the processing
    of the other messages and tenants of the delivery. *)
Theorem message_processing_never_raises P account message contacts w :
  ∃ w', processIncomingMessage P account message contacts w = (Ok tt, w').
Proof.
  destruct (processIncomingMessage_returns P account message contacts w)
    as (w' & Hrun & _).
  by exists w'.
Qed.

Lemma frame_of_run P account message contacts w r w' :
  processIncomingMessage P account message contacts w = (r, w') →
  whatsapp_accounts (w_db w') = whatsapp_accounts (w_db w)
  ∧ chatbot (w_db w') = chatbot (w_db w)
  ∧ (∃ rows, messages (w_db w') = messages (w_db w) ++ rows
             ∧ allowed_rows account message rows)
  ∧ (∃ reqs sends,
       gateway_requests (w_trace w') = gateway_requests (w_trace w) ++ reqs
       ∧ (length reqs ≤ 1)%nat
       ∧ dispatched (w_trace w') = dispatched (w_trace w) ++ sends
       ∧ allowed_dispatch P account (msg_from message)
                          (w_tick w) (w_tick w') reqs sends).
Proof.
  intros Hrun.
  exact (wp_run _ _ _ _ _ Hrun
           (processIncomingMessage_frame_wp P account message contacts w)).
Qed.

(** X10: whatever happens while one message is processed, the end user is
    sent nothing, one of the two fixed apologies, or the gateway's reply
    followed by the second apology - never anything else.  The reply is the
    non-empty [response] of the body that the Response Gateway returned,
    with a truthy [success], to the one request made for this message; and
    every send goes to the message's sender through the tenant's own number
    and access token. *)
Theorem end_user_sees_reply_or_apology P account message contacts w :
  ∃ reqs sends,
    gateway_requests
      (w_trace (processIncomingMessage P account message contacts w).2)
    = gateway_requests (w_trace w) ++ reqs
    ∧ dispatched (w_trace (processIncomingMessage P account message contacts w).2)
      = dispatched (w_trace w) ++ sends
    ∧ allowed_dispatch P account (msg_from message)
        (w_tick w)
        (w_tick (processIncomingMessage P account message contacts w).2)
        reqs sends.
Proof.
  destruct (frame_of_run P account message contacts w _ _ (surjective_pairing _))
    as (_ & _ & _ & reqs & sends & Hreqs & _ & Hsends & Hallowed).
  by exists reqs, sends.
Qed.

(** X11: the Response Gateway is called at most once per inbound message:
    there is no retry on any path. *)
Theorem gateway_called_at_most_once P account message contacts w :
  ∃ reqs,
    gateway_requests
      (w_trace (processIncomingMessage P account message contacts w).2)
    = gateway_requests (w_trace w) ++ reqs
    ∧ (length reqs ≤ 1)%nat.
Proof.
  destruct (frame_of_run P account message contacts w _ _ (surjective_pairing _))
    as (_ & _ & _ & reqs & sends & Hreqs & Hlen & _).
  by exists reqs.
Qed.

(** X12: processing one message only appends to [messages]: the rows that
    were there are kept, in order and unchanged, and what is added is
    nothing, the inbound row, or the inbound row followed by one assistant
    row, each carrying this tenant's chatbot id, the WHATSAPP channel and
    the conversation marker of (sender, chatbot). *)
Theorem messages_are_append_only P account message contacts w :
  ∃ rows,
    messages (w_db (processIncomingMessage P account message contacts w).2)
    = messages (w_db w) ++ rows
    ∧ allowed_rows account message rows.
Proof.
  destruct (frame_of_run P account message contacts w _ _ (surjective_pairing _))
    as (_ & _ & Hrows & _).
  exact Hrows.
Qed.

(* ------------------------------------------------------------------ *)
(** ** Invariants of a whole delivery *)

Section Keeps.

Context (J : Database → Prop).

Lemma keeps_ret {A} (a : A) : keeps J (mret a : M A).
Proof. by intros w. Qed.

Lemma keeps_throw {A} e : keeps J (throw e : M A).
Proof. by intros w. Qed.

Lemma keeps_lift {A} (o : outcome A) : keeps J (lift o).
Proof. by intros w. Qed.

Lemma keeps_logger l m : keeps J (logger l m).
Proof. by intros w. Qed.

Lemma keeps_bind {A B} (m : M A) (f : A → M B) :
  keeps J m → (∀ a, keeps J (f a)) → keeps J (m ≫= f).
Proof.
  intros Hm Hf w Hw. rewrite run_bind. specialize (Hm w Hw).
  destruct (m w) as [[a|e] w1]; cbn in *; [by apply Hf|done].
Qed.

Lemma keeps_try_catch {A} (body : M A) handler :
  keeps J body → (∀ e, keeps J (handler e)) → keeps J (try_catch body handler).
Proof.
  intros Hm Hh w Hw. unfold try_catch. specialize (Hm w Hw).
  destruct (body w) as [[a|e] w1]; cbn in *; [done|by apply Hh].
Qed.

Lemma keeps_for_of {A} (l : list A) (body : A → M unit) :
  (∀ x, keeps J (body x)) → keeps J (for_of l body).
Proof.
  intros Hbody. induction l as [|x l IH]; cbn [for_of].
  - apply keeps_ret.
  - apply keeps_bind; [apply Hbody|]. intros _. exact IH.
Qed.

Lemma keeps_pool_query P {A} (q : nat → Database → A * Database) :
  (∀ n db, J db → J (q n db).2) → keeps J (pool_query P q).
Proof.
  intros Hq w Hw. unfold pool_query. unfold_m. cbn.
  destruct (pool_query_rejects P (w_tick w)); cbn; [done|by apply Hq].
Qed.

Lemma keeps_pool_query_refused {A} : keeps J (pool_query_refused : M A).
Proof. by intros w Hw. Qed.

Lemma keeps_toISOString P d : keeps J (Date_toISOString P d).
Proof. destruct d; [apply keeps_ret|apply keeps_throw]. Qed.

End Keeps.

(** A property of the tables that processing a message keeps is kept by the
    whole handler. *)
Lemma handleWebhookMessage_keeps P (J : Database → Prop) payload :
  (∀ account message contacts,
     keeps J (processIncomingMessage P account message contacts)) →
  keeps J (handleWebhookMessage P payload).
Proof.
  intros Hmsg. unfold handleWebhookMessage.
  apply keeps_bind; [apply keeps_lift|]. intros pool.
  destruct (negb pool).
  - apply keeps_bind; [apply keeps_logger|]. intros _.
    apply keeps_bind; [apply keeps_logger|]. intros _.
    apply keeps_try_catch.
    + apply keeps_for_of. intros entry.
      apply keeps_bind; [apply keeps_logger|]. intros _.
      apply keeps_for_of. intros change.
      apply keeps_bind; [apply keeps_logger|]. intros _.
      destruct (String.eqb _ _); [|apply keeps_logger].
      apply keeps_for_of. intros message. unfold processIncomingMessageSimple.
      apply keeps_bind; [apply keeps_toISOString|]. intros iso.
      apply keeps_logger.
    + intros e. apply keeps_bind; [apply keeps_logger|]. intros _.
      apply keeps_throw.
  - apply keeps_try_catch.
    + apply keeps_for_of. intros entry. apply keeps_for_of. intros change.
      unfold handle_change. destruct (negb _); [apply keeps_logger|].
      apply keeps_bind; [apply keeps_logger|]. intros _.
      apply keeps_bind; [by apply keeps_pool_query|]. intros accountResult.
      destruct accountResult as [|a l]; [apply keeps_logger|].
      apply keeps_for_of. intros account. unfold handle_account.
      apply keeps_bind; [apply keeps_logger|]. intros _.
      destruct (String.eqb _ "messages").
      * apply keeps_bind.
        -- apply keeps_for_of. intros message. apply Hmsg.
        -- intros _. apply keeps_for_of. intros status.
           unfold processMessageStatus.
           apply keeps_bind; [apply keeps_logger|]. intros _.
           apply keeps_bind;
             [destruct (String.eqb _ _); [apply keeps_logger|apply keeps_ret]|].
           intros _. apply keeps_try_catch; [|intros e; apply keeps_logger].
           unfold update_status_statement. apply keeps_pool_query_refused.
      * destruct (String.eqb _ _); [|apply keeps_logger].
        unfold handleTemplateStatusUpdate. apply keeps_logger.
    + intros e. apply keeps_bind; [apply keeps_logger|]. intros _.
      apply keeps_throw.
Qed.

(** X13: the webhook handler only reads the tenant and chatbot tables: for
    every payload and every behaviour of the platform, [whatsapp_accounts]
    and [chatbot] are the same after [handleWebhookMessage] as before,
    whether it returns or throws. *)
Theorem tenant_tables_are_read_only P payload w :
  whatsapp_accounts (w_db (handleWebhookMessage P payload w).2)
  = whatsapp_accounts (w_db w)
  ∧ chatbot (w_db (handleWebhookMessage P payload w).2) = chatbot (w_db w).
Proof.
  apply (handleWebhookMessage_keeps P
           (λ db, whatsapp_accounts db = whatsapp_accounts (w_db w)
                  ∧ chatbot db = chatbot (w_db w)) payload); [|done].
  intros account message contacts w1 [Ha Hb].
  destruct (frame_of_run P account message contacts w1 _ _
              (surjective_pairing _)) as (Ha' & Hb' & _).
  split; congruence.
Qed.

(* ------------------------------------------------------------------ *)
(** ** Deliveries that must leave no trace but log lines *)

Lemma quiet_refl w : quiet w w.
Proof. by repeat split. Qed.

Lemma quiet_trans w1 w2 w3 : quiet w1 w2 → quiet w2 w3 → quiet w1 w3.
Proof.
  intros (H1 & H2 & H3 & H4) (H1' & H2' & H3' & H4').
  repeat split; congruence.
Qed.

Lemma for_of_quiet {A} (w0 : World) (body : A → M unit) (l : list A) : ∀ w,
  (∀ x w, x ∈ l → quiet w0 w → ∃ w', body x w = (Ok tt, w') ∧ quiet w0 w') →
  quiet w0 w →
  ∃ w', for_of l body w = (Ok tt, w') ∧ quiet w0 w'.
Proof.
  induction l as [|x l IH]; intros w Hbody Hw.
  - by exists w.
  - destruct (Hbody x w (list_elem_of_here _ _) Hw) as (w1 & Hrun1 & Hw1).
    destruct (IH w1) as (w2 & Hrun2 & Hw2); [|done|].
    { intros y w' Hy. apply Hbody. by apply list_elem_of_further. }
    exists w2. cbn [for_of]. by rewrite run_bind, Hrun1, Hrun2.
Qed.

Ltac quiet_log :=
  unfold quiet; cbn [w_db w_trace];
  rewrite ?gateway_requests_app, ?dispatched_app, ?processed_app;
  cbn [gateway_requests dispatched processed omap list_omap];
  rewrite ?app_nil_r; done.

Lemma logger_quiet w0 l m w :
  (∀ a b c d e, m ≠ NewMessageReceived a b c d e) →
  quiet w0 w →
  ∃ w', logger l m w = (Ok tt, w') ∧ quiet w0 w' ∧ w_tick w' = w_tick w.
Proof.
  intros Hm Hw. eexists. split; [reflexivity|]. split; [|reflexivity].
  apply (quiet_trans _ _ _ Hw). unfold quiet. cbn [w_db w_trace].
  rewrite gateway_requests_app, dispatched_app, processed_app.
  cbn [gateway_requests dispatched omap list_omap]. rewrite !app_nil_r.
  repeat split. unfold processed. cbn.
  destruct l; try by rewrite app_nil_r.
  destruct m; try by rewrite app_nil_r. by destruct (Hm accountId chatbotId from type messageId).
Qed.

(** X14: without a pool the handler runs in its single-user mode, which only
    logs: for every payload it stores nothing, makes no query and no
    gateway call and dispatches nothing - the end user gets no answer.  It
    returns normally when every message it reads carries a timestamp that
    makes a valid date; otherwise it stops at the first message that does
    not and ends with the RangeError of [toISOString], logged and
    rethrown. *)
Theorem no_pool_mode_only_logs P payload w :
  getDbClient P = Ok false →
  ∃ w', handleWebhookMessage P payload w
        = (if payload_dated payload then Ok tt else Throw RangeError, w')
        ∧ quiet w w' ∧ w_tick w' = w_tick w.
Proof.
  intros Hpool. unfold handleWebhookMessage. rewrite Hpool.
  unfold lift, try_catch, mbind at 1, M_bind at 1. cbn [negb].
  set (R := λ w1 : World, quiet w w1 ∧ w_tick w1 = w_tick w).
  set (res := λ b : bool, if b then Ok tt else @Throw unit RangeError).
  assert (Hloop : ∀ {A} (ok : A → bool) (body : A → M unit) (l : list A) w1,
            (∀ x w2, R w2 → ∃ w3, body x w2 = (res (ok x), w3) ∧ R w3) →
            R w1 → ∃ w2, for_of l body w1 = (res (forallb ok l), w2) ∧ R w2).
  { intros A ok body l. induction l as [|x l IH]; intros w1 Hbody Hw1.
    - by exists w1.
    - destruct (Hbody x w1 Hw1) as (w2 & Hrun2 & Hw2).
      cbn [for_of forallb]. rewrite run_bind, Hrun2.
      destruct (ok x); cbn [res andb].
      + exact (IH w2 Hbody Hw2).
      + by exists w2. }
  assert (Hlog : ∀ l m w1,
            (∀ a b c d e, m ≠ NewMessageReceived a b c d e) →
            R w1 → ∃ w2, logger l m w1 = (Ok tt, w2) ∧ R w2).
  { intros l m w1 Hm [Hq Ht].
    destruct (logger_quiet w l m w1 Hm Hq) as (w2 & Hrun & Hq2 & Ht2).
    exists w2. split; [done|]. split; [done|congruence]. }
  destruct (Hlog Warn NoDatabaseSingleUserMode w) as (w1 & Hrun1 & Hw1);
    [done|split; [apply quiet_refl|done]|].
  destruct (Hlog Info CompletePayload w1) as (w2 & Hrun2 & Hw2); [done|done|].
  rewrite !run_bind, Hrun1. rewrite run_bind, Hrun2.
  destruct (Hloop _ (λ entry, forallb change_dated (entry_changes entry))
              (λ entry,
              logger Info (EntryDetails (entry_id entry));;
              for_of (entry_changes entry) (λ change,
                logger Info (ChangeDetails (change_field change));;
                if String.eqb (change_field change) "messages" then
                  for_of (default [] (value_messages (change_value change)))
                         (λ message, processIncomingMessageSimple P message
                                       (value_contacts (change_value change)))
                else logger Info (WebhookFieldReceived (change_field change))))
              (payload_entry payload) w2) as (w3 & Hrun3 & Hw3); [|done|].
  { intros entry w3 Hw3.
    destruct (Hlog Info (EntryDetails (entry_id entry)) w3) as (w4 & Hrun4 & Hw4);
      [done|done|].
    rewrite run_bind, Hrun4. apply (Hloop _ change_dated); [|done].
    intros change w5 Hw5.
    destruct (Hlog Info (ChangeDetails (change_field change)) w5)
      as (w6 & Hrun6 & Hw6); [done|done|].
    rewrite run_bind, Hrun6. unfold change_dated.
    destruct (String.eqb _ _); [|by apply Hlog].
    apply (Hloop _ dated); [|done]. intros message w7 Hw7.
    unfold processIncomingMessageSimple, dated.
    destruct (new_Date (msg_timestamp message)) as [ms|]; cbn [res].
    - rewrite run_bind. cbn [Date_toISOString]. rewrite run_ret.
      by apply Hlog.
    - by exists w7. }
  fold (payload_dated payload) in Hrun3. rewrite Hrun3.
  destruct (payload_dated payload); cbn [res].
  - by exists w3.
  - destruct (Hlog Error ErrorProcessingWebhook w3) as (w4 & Hrun4 & Hw4);
      [done|done|].
    rewrite run_bind, Hrun4. by exists w4.
Qed.

Lemma no_pool_mode_only_logs_witness :
  ∃ w', handleWebhookMessage no_pool undated_delivery
          (Demo.world shared_number_db)
        = (Throw RangeError, w')
        ∧ quiet (Demo.world shared_number_db) w'
        ∧ w_tick w' = w_tick (Demo.world shared_number_db).
Proof.
  apply (no_pool_mode_only_logs no_pool undated_delivery
           (Demo.world shared_number_db)).
  reflexivity.
Defined.

Lemma handle_account_quiet_other_field P businessAccountId change account w0 w :
  change_field change ≠ "messages" →
  quiet w0 w →
  ∃ w', handle_account P businessAccountId change account w = (Ok tt, w')
        ∧ quiet w0 w'.
Proof.
  intros Hfield Hw. unfold handle_account, handleTemplateStatusUpdate.
  apply String.eqb_neq in Hfield. rewrite Hfield.
  destruct (logger_quiet w0 Info
              (ProcessingForAccount (acc_id account) (acc_chatbot_id account)) w)
    as (w1 & Hrun1 & Hw1 & _); [done|done|].
  rewrite run_bind, Hrun1. cbv iota.
  destruct (String.eqb (change_field change) "message_template_status_update").
  - destruct (logger_quiet w0 Info TemplateStatusUpdate w1) as (w2 & ? & ? & _);
      [done|done|]. by exists w2.
  - destruct (logger_quiet w0 Info (UnhandledField (change_field change)) w1)
      as (w2 & ? & ? & _); [done|done|]. by exists w2.
Qed.

Lemma with_tick_quiet w0 w n :
  quiet w0 w → quiet w0 {| w_db := w_db w; w_tick := n; w_trace := w_trace w |}.
Proof. done. Qed.

Lemma handle_change_quiet P businessAccountId change w0 w :
  (∀ n, pool_query_rejects P n = false) →
  inert (w_db w0) change →
  quiet w0 w →
  ∃ w', handle_change P businessAccountId change w = (Ok tt, w') ∧ quiet w0 w'.
Proof.
  intros Hacc Hinert Hw. unfold handle_change.
  destruct (truthy (value_phone_number_id (change_value change))) eqn:Hkey;
    cbn [negb].
  - destruct (logger_quiet w0 Info
                (ProcessingPhoneNumberId
                   (default "" (value_phone_number_id (change_value change)))) w)
      as (w1 & Hrun1 & Hw1 & _); [done|done|].
    rewrite run_bind, Hrun1. rewrite run_bind. unfold pool_query at 1.
    rewrite run_bind. unfold next_tick at 1. rewrite Hacc.
    cbn [fst snd set_db w_db w_tick w_trace].
    pose proof Hw1 as (Hdb & _). rewrite Hdb.
    destruct (Sql.active_accounts _ (w_db w0)) as [|a l] eqn:Haccs.
    + destruct (logger_quiet w0 Warn
                  (NoActiveAccount
                     (default "" (value_phone_number_id (change_value change))))
                  {| w_db := w_db w0; w_tick := S (w_tick w1); w_trace := w_trace w1 |})
        as (w2 & Hrun2 & Hw2 & _); [done| |by exists w2].
      destruct Hw1 as (? & ? & ? & ?). by repeat split.
    + destruct Hinert as [Hno|[Hnone|Hfield]]; [congruence|congruence|].
      apply for_of_quiet.
      * intros account w2 _ Hw2. by apply handle_account_quiet_other_field.
      * destruct Hw1 as (? & ? & ? & ?). by repeat split.
  - destruct (logger_quiet w0 Warn NoPhoneNumberId w) as (w1 & ? & ? & _);
      [done|done|]. by exists w1.
Qed.

(** X15: on the database path, a delivery all of whose changes are skipped -
    no routing key, no active tenant row for the key (unknown number, or
    only inactive rows), or a field other than "messages" - returns
    normally and leaves no trace but log lines: nothing is stored, no
    gateway call is made, nothing is dispatched. *)
Theorem skipped_changes_leave_no_trace P payload w :
  getDbClient P = Ok true →
  (∀ n, pool_query_rejects P n = false) →
  (∀ entry change,
     entry ∈ payload_entry payload → change ∈ entry_changes entry →
     inert (w_db w) change) →
  ∃ w', handleWebhookMessage P payload w = (Ok tt, w') ∧ quiet w w'.
Proof.
  intros Hpool Hacc Hinert. unfold handleWebhookMessage. rewrite Hpool.
  unfold lift, try_catch, mbind at 1, M_bind at 1. cbn [negb].
  destruct (for_of_quiet w
              (λ entry, for_of (entry_changes entry) (handle_change P (entry_id entry)))
              (payload_entry payload) w) as (w' & Hrun & Hw').
  - intros entry w1 Hentry Hw1. apply for_of_quiet; [|done].
    intros change w2 Hchange Hw2. apply handle_change_quiet; [done| |done].
    by apply (Hinert entry).
  - apply quiet_refl.
  - exists w'. by rewrite Hrun.
Qed.

Lemma skipped_changes_leave_no_trace_witness :
  ∃ w', handleWebhookMessage Demo.platform text_delivery (Demo.world inactive_only_db)
        = (Ok tt, w')
        ∧ quiet (Demo.world inactive_only_db) w'.
Proof.
  apply (skipped_changes_leave_no_trace Demo.platform text_delivery
           (Demo.world inactive_only_db)).
  - reflexivity.
  - intros n. reflexivity.
  - intros entry change Hentry Hchange.
    apply list_elem_of_singleton in Hentry as ->.
    apply list_elem_of_singleton in Hchange as ->.
    right. left. reflexivity.
Defined.

(** X16: a rejected tenant lookup aborts the whole delivery: when the lookup
    for the first change that carries a routing key is rejected,
    [handleWebhookMessage] rethrows the database error and none of the
    remaining changes and entries is looked at - nothing is stored, called
    or dispatched for them. *)
Theorem rejected_lookup_aborts_delivery
    P payload entryId change changes entries key w :
  getDbClient P = Ok true →
  payload_entry payload
    = {| entry_id := entryId; entry_changes := change :: changes |} :: entries →
  value_phone_number_id (change_value change) = Some key →
  key ≠ "" →
  pool_query_rejects P (w_tick w) = true →
  ∃ w', handleWebhookMessage P payload w = (Throw DbError, w') ∧ quiet w w'.
Proof.
  intros Hpool Hentry Hkey Hne Hrej. unfold handleWebhookMessage.
  rewrite Hpool, Hentry.
  unfold lift, try_catch, mbind at 1, M_bind at 1.
  cbn [negb for_of entry_changes entry_id].
  rewrite !run_bind. unfold handle_change at 1. rewrite Hkey.
  apply String.eqb_neq in Hne. cbn [truthy]. rewrite Hne.
  cbn [negb default from_option id].
  rewrite run_bind. unfold logger at 1, emit at 1.
  rewrite run_bind. unfold pool_query at 1. rewrite run_bind.
  unfold next_tick at 1. cbn [w_tick w_db w_trace]. rewrite Hrej.
  unfold throw at 1. unfold_m. cbn.
  eexists. split; [reflexivity|]. quiet_log.
Qed.

Lemma rejected_lookup_aborts_delivery_witness :
  ∃ w', handleWebhookMessage rejecting text_delivery (Demo.world shared_number_db)
        = (Throw DbError, w')
        ∧ quiet (Demo.world shared_number_db) w'.
Proof.
  apply (rejected_lookup_aborts_delivery rejecting text_delivery "waba"
           text_change [] [] "pn-1" (Demo.world shared_number_db));
    try reflexivity.
  discriminate.
Defined.

(** X17: a message of an AI-handled type whose projected text is empty (a
    text without body, a button without text, an interactive message that
    is neither a button reply nor a list reply) is dropped before anything
    is stored: processing returns normally, makes no query, no gateway call
    and no send. *)
Theorem empty_content_is_dropped P account message contacts w :
  is_ai_type (msg_type message) = true →
  messageContent_of message = "" →
  ∃ w', processIncomingMessage P account message contacts w = (Ok tt, w')
        ∧ w_db w' = w_db w
        ∧ w_tick w' = w_tick w
        ∧ gateway_requests (w_trace w') = gateway_requests (w_trace w)
        ∧ dispatched (w_trace w') = dispatched (w_trace w).
Proof.
  intros Hai Hempty. unfold processIncomingMessage. unfold_m.
  rewrite Hai, Hempty. cbn.
  eexists. split; [reflexivity|]. cbn.
  rewrite <- !app_assoc, gateway_requests_app, dispatched_app. cbn.
  by rewrite !app_nil_r.
Qed.

Lemma empty_content_is_dropped_witness :
  ∃ w', processIncomingMessage Demo.platform (Demo.account "a1" "bot1")
          unknown_interactive None (Demo.world one_bot_db) = (Ok tt, w')
        ∧ w_db w' = w_db (Demo.world one_bot_db)
        ∧ w_tick w' = w_tick (Demo.world one_bot_db)
        ∧ gateway_requests (w_trace w')
          = gateway_requests (w_trace (Demo.world one_bot_db))
        ∧ dispatched (w_trace w') = dispatched (w_trace (Demo.world one_bot_db)).
Proof.
  apply (empty_content_is_dropped Demo.platform (Demo.account "a1" "bot1")
           unknown_interactive None (Demo.world one_bot_db)); reflexivity.
Defined.

(* ------------------------------------------------------------------ *)
(** ** The gateway cannot be used, or there is no key to call it with *)

Section GatewayUnusable.

Context (P : Platform).
Hypothesis gateway_unusable : ∀ n req d, response_api P n req ≠ AxOk (Some d).

Lemma gateway_unusable_wp account message contacts w :
  wp (processIncomingMessage P account message contacts)
     (λ r w',
        gateway_requests (w_trace w') ≠ gateway_requests (w_trace w) →
        r = Ok tt
        ∧ dispatched (w_trace w')
          = dispatched (w_trace w)
            ++ [send_to account (msg_from message) apology_exception]
        ∧ filter (λ r, is_assistant r = true) (messages (w_db w'))
          = filter (λ r, is_assistant r = true) (messages (w_db w))) w.
Proof.
  unfold processIncomingMessage, respond, upsertContact.
  repeat wp_step P.
  all: try (trace_simpl; done).
  all: match goal with
       | H : response_api P ?n ?req = AxOk (Some ?d) |- _ =>
           destruct (gateway_unusable n req d H)
       end.
Qed.

End GatewayUnusable.

(** X18: when the Response Gateway call does not yield a body - it times
    out, is answered with a non-2xx status, fails in transport, or returns
    null - a message whose processing reaches the gateway ends normally,
    the end user is sent exactly one message, the second fixed apology
    ("Sorry, I encountered an error. Please try again later."), and no
    assistant row is appended. *)
Theorem gateway_error_sends_generic_apology P account message contacts w r w' :
  (∀ n req d, response_api P n req ≠ AxOk (Some d)) →
  processIncomingMessage P account message contacts w = (r, w') →
  gateway_requests (w_trace w') ≠ gateway_requests (w_trace w) →
  r = Ok tt
  ∧ dispatched (w_trace w')
    = dispatched (w_trace w)
      ++ [send_to account (msg_from message) apology_exception]
  ∧ filter (λ r, is_assistant r = true) (messages (w_db w'))
    = filter (λ r, is_assistant r = true) (messages (w_db w)).
Proof.
  intros Hgw Hrun.
  exact (wp_run _ _ _ _ _ Hrun (gateway_unusable_wp P Hgw account message contacts w)).
Qed.

Lemma gateway_error_sends_generic_apology_witness :
  gateway_timeout_run.1 = Ok tt
  ∧ dispatched (w_trace gateway_timeout_run.2)
    = dispatched (w_trace (Demo.world one_bot_db))
      ++ [send_to (Demo.account "a1" "bot1")
                  (msg_from (Demo.text_message "hi")) apology_exception]
  ∧ filter (λ r, is_assistant r = true) (messages (w_db gateway_timeout_run.2))
    = filter (λ r, is_assistant r = true) (messages (w_db (Demo.world one_bot_db))).
Proof.
  refine (gateway_error_sends_generic_apology gateway_timeout
            (Demo.account "a1" "bot1") (Demo.text_message "hi") None
            (Demo.world one_bot_db) gateway_timeout_run.1 gateway_timeout_run.2
            _ _ _).
  - intros n req d. discriminate.
  - apply surjective_pairing.
  - vm_compute. discriminate.
Defined.

Section NoApiKey.

Context (P : Platform).
Hypothesis accepts : ∀ n, pool_query_rejects P n = false.


End NoApiKey.



(* ------------------------------------------------------------------ *)
(** ** One contact row per (chatbot, phone number) *)

Lemma select_contact_nil chatbotId phone db :
  Sql.select_contact chatbotId phone db = [] →
  contact_rows chatbotId phone db = [].
Proof.
  unfold Sql.select_contact, contact_rows.
  by destruct (filter _ (whatsapp_contacts db)).
Qed.

Lemma is_contact_of_eq chatbotId phone r :
  Sql.is_contact_of chatbotId phone r = true ↔
  ct_chatbot_id r = chatbotId ∧ ct_phone_number r = phone.
Proof.
  unfold Sql.is_contact_of. rewrite andb_true_iff, !String.eqb_eq. done.
Qed.

Lemma unique_after_insert db row accounts messages' bots :
  contacts_unique db →
  contact_rows (ct_chatbot_id row) (ct_phone_number row) db = [] →
  contacts_unique {| whatsapp_accounts := accounts;
                     whatsapp_contacts := whatsapp_contacts db ++ [row];
                     messages := messages';
                     chatbot := bots |}.
Proof.
  intros Huniq Hnone chatbotId phone. unfold contact_rows in *. cbn.
  rewrite filter_app, length_app. rewrite filter_cons, filter_nil.
  destruct (decide (Sql.is_contact_of chatbotId phone row = true)) as [Hrow|Hrow].
  - apply is_contact_of_eq in Hrow as [<- <-]. rewrite Hnone. cbn. lia.
  - pose proof (Huniq chatbotId phone) as Hle. unfold contact_rows in Hle.
    cbn. lia.
Qed.

Lemma unique_after_update db name seen id accounts messages' bots :
  contacts_unique db →
  contacts_unique
    {| whatsapp_accounts := accounts;
       whatsapp_contacts :=
         map (λ r, if String.eqb (ct_id r) id
                   then Sql.touch_contact name seen r else r)
             (whatsapp_contacts db);
       messages := messages';
       chatbot := bots |}.
Proof.
  intros Huniq chatbotId phone. unfold contact_rows. cbn.
  rewrite filter_map_preserved.
  - rewrite length_map. apply Huniq.
  - intros r. by destruct (String.eqb (ct_id r) id).
Qed.

Lemma unique_same_contacts db db' :
  whatsapp_contacts db' = whatsapp_contacts db →
  contacts_unique db → contacts_unique db'.
Proof.
  intros Heq Huniq chatbotId phone. unfold contact_rows. rewrite Heq. apply Huniq.
Qed.

Lemma processIncomingMessage_unique_wp P account message contacts w :
  contacts_unique (w_db w) →
  wp (processIncomingMessage P account message contacts)
     (λ _ w', contacts_unique (w_db w')) w.
Proof.
  intros Huniq.
  unfold processIncomingMessage, respond, upsertContact.
  repeat wp_step P.
  all: first
    [ exact Huniq
    | by apply (unique_same_contacts (w_db w))
    | apply unique_after_update; exact Huniq
    | apply unique_after_insert; [exact Huniq | by apply select_contact_nil]
    | eapply unique_same_contacts;
      [ | apply (unique_after_update (w_db w)); exact Huniq ]; reflexivity
    | eapply unique_same_contacts;
      [ | apply (unique_after_insert (w_db w));
          [exact Huniq | by apply select_contact_nil] ]; reflexivity ].
Qed.

(** X20: the handler keeps the uniqueness of contacts: if no (chatbot, phone
    number) pair has more than one row in [whatsapp_contacts] before a
    delivery is handled, none has after, for every payload and every
    behaviour of the platform (rejected statements included). *)
Theorem contacts_stay_unique P payload w :
  contacts_unique (w_db w) →
  contacts_unique (w_db (handleWebhookMessage P payload w).2).
Proof.
  apply (handleWebhookMessage_keeps P contacts_unique payload).
  intros account message contacts w1 Hw1.
  exact (processIncomingMessage_unique_wp P account message contacts w1 Hw1).
Qed.

Lemma contacts_stay_unique_witness :
  contacts_unique
    (w_db (handleWebhookMessage Demo.platform text_delivery
             (Demo.world shared_number_db)).2).
Proof.
  apply (contacts_stay_unique Demo.platform text_delivery
           (Demo.world shared_number_db)).
  intros chatbotId phone. cbn. lia.
Defined.

(* ------------------------------------------------------------------ *)
(** ** Replayed and reordered delivery statuses *)

Lemma status_errors_app t1 t2 :
  status_errors (t1 ++ t2) = status_errors t1 ++ status_errors t2.
Proof. apply omap_app. Qed.

(** X21: status events are never applied, in whatever order and however
    often they arrive.  For every list of status events of a change, the
    loop over them returns normally, sends one UPDATE per event - each
    refused, and logged under the event's provider message id - and
    leaves every table as it was. *)
Theorem status_events_never_update_any_row account statuses w :
  ∃ w', for_of statuses (processMessageStatus account) w = (Ok tt, w')
        ∧ w_db w' = w_db w
        ∧ w_tick w' = (w_tick w + length statuses)%nat
        ∧ status_errors (w_trace w')
          = status_errors (w_trace w) ++ map st_id statuses.
Proof.
  revert w. induction statuses as [|status statuses IH]; intros w.
  - exists w. cbn. rewrite app_nil_r. repeat split; lia.
  - cbn [for_of]. rewrite run_bind.
    assert (Hone : ∃ w1, processMessageStatus account status w = (Ok tt, w1)
                         ∧ w_db w1 = w_db w
                         ∧ w_tick w1 = S (w_tick w)
                         ∧ status_errors (w_trace w1)
                           = status_errors (w_trace w) ++ [st_id status]).
    { unfold processMessageStatus, update_status_statement, pool_query_refused.
      unfold_m.
      destruct (String.eqb (st_status status) "failed"); cbn;
        eexists; (split; [reflexivity|]); cbn;
        rewrite !status_errors_app; cbn; by rewrite ?app_nil_r. }
    destruct Hone as (w1 & Hrun1 & Hdb1 & Htick1 & Herr1). rewrite Hrun1.
    destruct (IH w1) as (w2 & Hrun2 & Hdb2 & Htick2 & Herr2).
    exists w2. split; [exact Hrun2|]. split; [congruence|].
    split; [cbn [length]; lia|].
    rewrite Herr2, Herr1, <- app_assoc. reflexivity.
Qed.

(* ------------------------------------------------------------------ *)
(** ** Which ten rows the history holds *)

(** X22: ORDER BY created_at ASC LIMIT 10 keeps the oldest rows: a row with
    ten or more rows of its conversation created strictly before it is not
    part of the history.  So once a conversation holds ten rows, the message
    just received is no longer among those sent to the Response Gateway. *)
Theorem history_is_the_oldest_ten chatbotId convId db r :
  (10 ≤ length (earlier_rows chatbotId convId db r))%nat →
  r ∉ Sql.select_history chatbotId convId db.
Proof.
  unfold earlier_rows, conversation, Sql.select_history.
  set (conv := filter _ (messages db)).
  intros Hlen Hin.
  pose proof (StronglySorted_merge_sort Sql.created_le conv) as Hsorted.
  rewrite <- (merge_sort_Permutation Sql.created_le conv) in Hlen.
  set (l := merge_sort Sql.created_le conv) in *.
  rewrite <- (take_drop 10 l) in Hsorted.
  rewrite <- (take_drop 10 l), filter_app, length_app in Hlen.
  assert (Hdrop : filter (λ x, m_created_at x < m_created_at r) (drop 10 l) = []).
  { destruct (filter _ (drop 10 l)) as [|x t] eqn:Hf; [done|].
    assert (Hx : x ∈ filter (λ x, m_created_at x < m_created_at r) (drop 10 l))
      by (rewrite Hf; left).
    apply list_elem_of_filter in Hx as [Hlt Hx].
    pose proof (StronglySorted_app_1_elem_of _ _ _ _ _ Hsorted Hin Hx) as Hle.
    unfold Sql.created_le in Hle. lia. }
  rewrite Hdrop in Hlen. cbn in Hlen.
  pose proof (length_filter_lt (λ x, m_created_at x < m_created_at r)
                (take 10 l) r Hin (Z.lt_irrefl _)) as Hfew.
  pose proof (length_take l 10) as Hten.
  lia.
Qed.

Lemma history_is_the_oldest_ten_witness :
  inbound_row "m11" "bot1" 11
    ∉ Sql.select_history "bot1" (uniqueConvId_of "15550001" "bot1")
        long_conversation.
Proof.
  apply (history_is_the_oldest_ten "bot1" (uniqueConvId_of "15550001" "bot1")
           long_conversation (inbound_row "m11" "bot1" 11)).
  vm_compute. lia.
Defined.

(* ------------------------------------------------------------------ *)
(** ** [config/database.ts]: the connection pool *)

(** X23: [getDbClient] raises at most once.  The pool is assigned before its
    connection is tested and is not cleared when the test fails, so after a
    call that raised, every later call - whatever the environment then is -
    returns that untested pool at once: no new pool, no connection test, no
    log line. *)
Theorem getDbClient_raises_at_most_once E s e s1 :
  DatabaseConfig.getDbClient E s = (Throw e, s1) →
  ∃ p, DatabaseConfig.pool s1 = Some p
       ∧ DatabaseConfig.connectionString p
         = default "" (DatabaseConfig.DATABASE_URL E)
       ∧ ∀ E', DatabaseConfig.getDbClient E' s1 = (Ok (Some p), s1).
Proof.
  unfold DatabaseConfig.getDbClient, DatabaseConfig.initializeDatabase.
  destruct (bool_decide (is_Some (DatabaseConfig.pool s))); cbn; [discriminate|].
  destruct (truthy (DatabaseConfig.DATABASE_URL E)); cbn; [|discriminate].
  destruct (DatabaseConfig.connect_rejects E (DatabaseConfig.created s));
    [|discriminate].
  intros [= <- <-]. eexists. split; [reflexivity|]. split; [reflexivity|].
  intros E'. reflexivity.
Qed.

Lemma getDbClient_raises_at_most_once_witness :
  ∃ p, DatabaseConfig.pool
         (DatabaseConfig.getDbClient DatabaseConfig.unreachable
            DatabaseConfig.fresh).2 = Some p
       ∧ DatabaseConfig.connectionString p
         = default "" (DatabaseConfig.DATABASE_URL DatabaseConfig.unreachable)
       ∧ ∀ E', DatabaseConfig.getDbClient E'
                 (DatabaseConfig.getDbClient DatabaseConfig.unreachable
                    DatabaseConfig.fresh).2
               = (Ok (Some p),
                  (DatabaseConfig.getDbClient DatabaseConfig.unreachable
                     DatabaseConfig.fresh).2).
Proof.
  apply (getDbClient_raises_at_most_once DatabaseConfig.unreachable
           DatabaseConfig.fresh DbError).
  reflexivity.
Defined.

(** X24: [getDbClient] answers null - the mode in which deliveries are only
    logged - exactly when no pool is installed and DATABASE_URL is unset or
    empty; in every other case it returns a pool or raises. *)
Theorem getDbClient_null_iff_unconfigured E s :
  (DatabaseConfig.getDbClient E s).1 = Ok None
  ↔ DatabaseConfig.pool s = None
    ∧ truthy (DatabaseConfig.DATABASE_URL E) = false.
Proof.
  unfold DatabaseConfig.getDbClient, DatabaseConfig.initializeDatabase.
  destruct (DatabaseConfig.pool s) as [p|] eqn:Hpool; cbn.
  - split; [discriminate|]. by intros [? _].
  - destruct (truthy (DatabaseConfig.DATABASE_URL E)); cbn.
    + destruct (DatabaseConfig.connect_rejects E (DatabaseConfig.created s));
        cbn; split; try discriminate; by intros [_ ?].
    + rewrite Hpool. done.
Qed.
